(** * tarjouspalvelu.js: session handling and HTML extraction

    A shallow embedding of the scraper's TypeScript sources
    ([utilities.ts] in its two revisions, [company.ts], [notice.ts],
    [tender.ts]) together with the properties its design document
    states about them.

    Strings are JavaScript strings, that is sequences of UTF-16 code
    units; thrown exceptions are values of [result]; the session object
    that [loginToSession] mutates in place is threaded explicitly. *)

From Stdlib Require Import List NArith ZArith Bool String Ascii Lia.
Import ListNotations.

Set Implicit Arguments.
Local Open Scope list_scope.

(* ===================================================================== *)
(** ** JavaScript strings *)
(* ===================================================================== *)

Module Js.

(** A UTF-16 code unit. *)
Definition char := N.

Definition jsstring := list char.

(** An ASCII literal of the source as a [jsstring]. *)
Definition lit (s : string) : jsstring :=
  map N_of_ascii (list_ascii_of_string s).

(** The double quote character, U+0022. *)
Definition dquote : char := 34%N.

Fixpoint eqb (a b : jsstring) : bool :=
  match a, b with
  | [], [] => true
  | x :: a', y :: b' => N.eqb x y && eqb a' b'
  | _, _ => false
  end.

(** [String.prototype.startsWith]. *)
Fixpoint startsWith (p s : jsstring) : bool :=
  match p, s with
  | [], _ => true
  | x :: p', y :: s' => N.eqb x y && startsWith p' s'
  | _ :: _, [] => false
  end.

(** [String.prototype.indexOf]: position of the first occurrence. *)
Fixpoint indexOf (pat s : jsstring) : option nat :=
  if startsWith pat s then Some 0
  else match s with
       | [] => None
       | _ :: s' => option_map S (indexOf pat s')
       end.

(** [String.prototype.includes]. *)
Definition includes (s pat : jsstring) : bool :=
  match indexOf pat s with Some _ => true | None => false end.

(** [s.replace(pat, rep)] for a string pattern: only the first
    occurrence is replaced.  Every replacement string in the sources is
    the empty string, so no [$]-pattern of the replacement arises. *)
Definition replace (s pat rep : jsstring) : jsstring :=
  match indexOf pat s with
  | None => s
  | Some i => firstn i s ++ rep ++ skipn (i + List.length pat) s
  end.

(** [s.substr(n)] for a non-negative [n]. *)
Definition substr (n : nat) (s : jsstring) : jsstring := skipn n s.

(** [s.split(sep)[0]] for a non-empty separator. *)
Definition split0 (sep s : jsstring) : jsstring :=
  match indexOf sep s with
  | None => s
  | Some i => firstn i s
  end.

(** [s.split(sep)] for a one-character separator. *)
Fixpoint split (sep : char) (s : jsstring) : list jsstring :=
  match s with
  | [] => [[]]
  | c :: s' =>
      if N.eqb c sep then [] :: split sep s'
      else match split sep s' with
           | [] => [[c]]
           | w :: ws => (c :: w) :: ws
           end
  end.

(** [parts.join('')]. *)
Definition join (parts : list jsstring) : jsstring := List.concat parts.

(** Line terminators: LF, CR, U+2028, U+2029. *)
Definition isLineTerminator (c : char) : bool :=
  (N.eqb c 10 || N.eqb c 13 || N.eqb c 8232 || N.eqb c 8233)%N.

(** White space as [trim] and [parseInt] understand it: the line
    terminators, TAB, VT, FF, SP, NBSP, the BOM and the Unicode space
    separators. *)
Definition isWhiteSpace (c : char) : bool :=
  (isLineTerminator c
   || N.eqb c 9 || N.eqb c 11 || N.eqb c 12 || N.eqb c 32 || N.eqb c 160
   || N.eqb c 5760 || (N.leb 8192 c && N.leb c 8202)
   || N.eqb c 8239 || N.eqb c 8287 || N.eqb c 12288 || N.eqb c 65279)%N.

Fixpoint trimStart (s : jsstring) : jsstring :=
  match s with
  | c :: s' => if isWhiteSpace c then trimStart s' else s
  | [] => []
  end.

Definition trimEnd (s : jsstring) : jsstring := rev (trimStart (rev s)).

(** [String.prototype.trim]. *)
Definition trim (s : jsstring) : jsstring := trimEnd (trimStart s).

(** JavaScript truthiness of a string: the empty string is falsy. *)
Definition truthy (s : jsstring) : bool :=
  match s with [] => false | _ :: _ => true end.

(** *** Numbers, as far as [parseInt] produces them *)

Inductive number := NaN | Num (z : Z).

Definition digitValue (c : char) : option Z :=
  if (N.leb 48 c && N.leb c 57)%N then Some (Z.of_N c - 48)%Z
  else if (N.leb 97 c && N.leb c 122)%N then Some (Z.of_N c - 87)%Z
  else if (N.leb 65 c && N.leb c 90)%N then Some (Z.of_N c - 55)%Z
  else None.

(** The longest prefix of digits of the radix, read left to right;
    [None] when there is no digit at all. *)
Fixpoint digits (radix : Z) (acc : option Z) (s : jsstring) : option Z :=
  match s with
  | [] => acc
  | c :: s' =>
      match digitValue c with
      | Some d =>
          if (d <? radix)%Z then
            digits radix
              (Some (match acc with Some a => a * radix + d | None => d end)%Z)
              s'
          else acc
      | None => acc
      end
  end.

(** [parseInt(s)] without a radix: leading white space is skipped, a
    sign is read, [0x] or [0X] selects radix 16, and the digits up to
    the first foreign character are read.  The value is the exact
    integer, which is the double [parseInt] returns below 2^53. *)
Definition parseInt (s : jsstring) : number :=
  let s1 := trimStart s in
  let '(sign, s2) :=
    match s1 with
    | c :: r => if N.eqb c 45 then ((-1)%Z, r)
                else if N.eqb c 43 then (1%Z, r) else (1%Z, s1)
    | [] => (1%Z, s1)
    end in
  let '(radix, s3) :=
    match s2 with
    | z :: x :: r =>
        if (N.eqb z 48 && (N.eqb x 120 || N.eqb x 88))%bool
        then (16%Z, r) else (10%Z, s2)
    | _ => (10%Z, s2)
    end in
  match digits radix None s3 with
  | Some v => Num (sign * v)
  | None => NaN
  end.

(** Truthiness of a number: [NaN] and zero are falsy. *)
Definition truthyNumber (n : number) : bool :=
  match n with NaN => false | Num z => negb (Z.eqb z 0) end.

(** *** The regular expressions of the sources

    Every regular expression of the sources has the shape
    [prefix(.*?)suffix], where prefix and suffix are sequences of
    literal characters and of the wildcard [.]. *)

Inductive atom := Lit (c : char) | Dot.

Definition lits (s : string) : list atom := map Lit (lit s).

Definition atomMatches (a : atom) (c : char) : bool :=
  match a with
  | Lit x => N.eqb x c
  | Dot => negb (isLineTerminator c)
  end.

(** Match a sequence of atoms at the head of [s]; the rest of [s]. *)
Fixpoint matchAtoms (p : list atom) (s : jsstring) : option jsstring :=
  match p, s with
  | [], _ => Some s
  | a :: p', c :: s' => if atomMatches a c then matchAtoms p' s' else None
  | _ :: _, [] => None
  end.

(** The lazy group [(.*?)] followed by [suffix]: the shortest run of
    non-terminator characters after which the suffix matches. *)
Fixpoint lazyCapture (suffix : list atom) (s : jsstring) : option jsstring :=
  match matchAtoms suffix s with
  | Some _ => Some []
  | None =>
      match s with
      | [] => None
      | c :: s' =>
          if isLineTerminator c then None
          else option_map (cons c) (lazyCapture suffix s')
      end
  end.

(** [s.match(/prefix(.*?)suffix/)]: the leftmost match, and of it the
    first capture group ([m[1]]); [None] is JavaScript's [null]. *)
Fixpoint regexMatch (prefix suffix : list atom) (s : jsstring)
  : option jsstring :=
  match
    match matchAtoms prefix s with
    | Some rest => lazyCapture suffix rest
    | None => None
    end
  with
  | Some cap => Some cap
  | None =>
      match s with
      | [] => None
      | _ :: s' => regexMatch prefix suffix s'
      end
  end.

End Js.

Import Js.


(* ===================================================================== *)
(** ** Exceptions *)
(* ===================================================================== *)

(** What a function throws: an [Error] of the source with its message,
    the [TypeError] the runtime raises when a property of [null] or
    [undefined] is read, or the error of a rejected request that no
    handler catches. *)
Inductive error :=
| Error (message : string)
| TypeError
| AxiosError.

Inductive result (A : Type) :=
| Ok (a : A)
| Throw (e : error).

Arguments Ok {A} a.
Arguments Throw {A} e.

Definition bind {A B} (m : result A) (k : A -> result B) : result B :=
  match m with
  | Ok a => k a
  | Throw e => Throw e
  end.

Notation "x <- m ;; k" := (bind m (fun x => k))
  (at level 61, m at next level, right associativity).

(** [o[1]], [o.toString()] and the like on a value that may be [null]
    or [undefined]. *)
Definition deref {A} (o : option A) : result A :=
  match o with
  | Some a => Ok a
  | None => Throw TypeError
  end.

(** A loop body run over the elements in order; the first exception
    ends the loop (a [for] that pushes, or cheerio's [.map(...).get()]). *)
Fixpoint mapM {A B} (f : A -> result B) (l : list A) : result (list B) :=
  match l with
  | [] => Ok []
  | x :: l' => y <- f x ;; ys <- mapM f l' ;; Ok (y :: ys)
  end.

(** The error names of the design document, by the message thrown. *)
Definition InvalidSlug := Error "Invalid company slug".
Definition SessionAcquisitionFailed := Error "Failed getting company ID".
Definition LoginFailed := Error "Failed to log in, bad username/password?".
Definition LanguageMismatch := Error "Response has an unexpected language".
Definition LocaleNotFound := Error "Failed to match the locale".
Definition FlagParseError := Error "Failed to parse flag image".

(* ===================================================================== *)
(** ** The document tree and the cheerio operations the sources use *)
(* ===================================================================== *)

Module Cheerio.

(** A parsed document: text nodes and elements with their attributes
    (first binding of a name wins, as in the parser) and children. *)
#[warnings="-register-all"]
Inductive node :=
| Text (data : jsstring)
| Elem (name : jsstring) (attribs : list (jsstring * jsstring))
       (children : list node).

(** A cheerio selection: elements in document order. *)
Definition selection := list node.

Fixpoint lookup (k : jsstring) (l : list (jsstring * jsstring))
  : option jsstring :=
  match l with
  | [] => None
  | (k', v) :: l' => if eqb k k' then Some v else lookup k l'
  end.

(** The text of one node: its descendant text nodes, concatenated.
    (Comments are not part of the tree, and the cells and fields read
    below hold no [script] or [style] element, whose content the
    versions of cheerio treat differently.) *)
Fixpoint textOf (n : node) : jsstring :=
  match n with
  | Text d => d
  | Elem _ _ cs => flat_map textOf cs
  end.

(** [sel.text()]. *)
Definition text (sel : selection) : jsstring := flat_map textOf sel.

(** Every element below and including [n], in document order, each
    with its ancestors, nearest first. *)
Fixpoint walk (anc : list node) (n : node) : list (list node * node) :=
  match n with
  | Text _ => []
  | Elem _ _ cs => (anc, n) :: flat_map (walk (n :: anc)) cs
  end.

Definition childrenOf (n : node) : list node :=
  match n with
  | Text _ => []
  | Elem _ _ cs => cs
  end.

(** The elements strictly below [n], with their ancestors up to [n]. *)
Definition below (n : node) : list (list node * node) :=
  flat_map (walk [n]) (childrenOf n).

Definition attrOf (name : jsstring) (n : node) : option jsstring :=
  match n with
  | Text _ => None
  | Elem _ attrs _ => lookup name attrs
  end.

(** [sel.attr(name)]: the attribute of the first element; [None] is
    [undefined]. *)
Definition attr (name : string) (sel : selection) : option jsstring :=
  match sel with
  | [] => None
  | n :: _ => attrOf (lit name) n
  end.

(** [$(sel[i])]: the selection of the [i]-th element, empty when there
    is none. *)
Definition at_ (i : nat) (sel : selection) : selection :=
  match nth_error sel i with
  | Some n => [n]
  | None => []
  end.

(** *** Selectors *)

Inductive cond :=
| HasId (v : string)                    (* #v *)
| HasClass (v : string)                 (* .v *)
| AttrEq (name v : string)              (* [name=v] *)
| AttrContains (name v : string).       (* [name*=v] *)

(** A compound selector: an optional tag name and conditions. *)
Record compound := { tag : option string; conds : list cond }.

Definition T (t : string) : compound := {| tag := Some t; conds := [] |}.
Definition C (c : cond) : compound := {| tag := None; conds := [c] |}.
Definition TC (t : string) (c : cond) : compound :=
  {| tag := Some t; conds := [c] |}.

(** The white space that separates the words of an attribute: SP,
    TAB, LF, FF and CR. *)
Definition isCssSpace (c : char) : bool :=
  (N.eqb c 32 || N.eqb c 9 || N.eqb c 10 || N.eqb c 12 || N.eqb c 13)%N.

(** The words of a [class] attribute. *)
Definition classes (v : jsstring) : list jsstring :=
  filter truthy
    (fold_right
       (fun c acc =>
          if isCssSpace c then [] :: acc
          else match acc with
               | [] => [[c]]
               | w :: ws => (c :: w) :: ws
               end)
       [[]] v).

Definition condHolds (c : cond) (n : node) : bool :=
  match c with
  | HasId v =>
      match attrOf (lit "id") n with
      | Some x => eqb x (lit v)
      | None => false
      end
  | HasClass v =>
      match attrOf (lit "class") n with
      | Some x => existsb (eqb (lit v)) (classes x)
      | None => false
      end
  | AttrEq name v =>
      match attrOf (lit name) n with
      | Some x => eqb x (lit v)
      | None => false
      end
  | AttrContains name v =>
      match attrOf (lit name) n with
      | Some x => includes x (lit v)
      | None => false
      end
  end.

Definition matches (c : compound) (n : node) : bool :=
  match n with
  | Text _ => false
  | Elem name _ _ =>
      match tag c with
      | Some t => eqb name (lit t)
      | None => true
      end
      && forallb (fun k => condHolds k n) (conds c)
  end.

(** A selector [c1 > c2 > ... > ck], given innermost first
    ([ck; ...; c1]), against an element and its ancestors. *)
Fixpoint matchesChain (chain : list compound) (anc : list node) (n : node)
  : bool :=
  match chain with
  | [] => true
  | c :: outer =>
      matches c n
      && match outer with
         | [] => true
         | _ :: _ =>
             match anc with
             | [] => false
             | p :: anc' => matchesChain outer anc' p
             end
         end
  end.

Definition pick (chain : list compound) (l : list (list node * node))
  : selection :=
  map snd (filter (fun '(anc, n) => matchesChain chain anc n) l).

(** [$(selector)] on a loaded document given by its top-level nodes. *)
Definition select (chain : list compound) (doc : list node) : selection :=
  pick chain (flat_map (walk []) doc).

(** [sel.find(selector)] for a selection of at most one element: the
    matching elements strictly below it. *)
Definition find (chain : list compound) (sel : selection) : selection :=
  flat_map (fun n => pick chain (below n)) sel.

(** [sel.css(prop)]: the declaration of [prop] in the [style]
    attribute of the first element; a later declaration overrides an
    earlier one, and a piece without a colon, or with the colon first
    or last, is skipped. *)
Definition declaration (piece : jsstring) : option (jsstring * jsstring) :=
  match indexOf [58%N] piece with
  | Some (S k) =>
      if Nat.eqb (S (S k)) (List.length piece) then None
      else Some (trim (firstn (S k) piece), trim (skipn (S (S k)) piece))
  | _ => None
  end.

Definition css (prop : string) (sel : selection) : option jsstring :=
  match sel with
  | [] => None
  | n :: _ =>
      match attrOf (lit "style") n with
      | None => None
      | Some st =>
          fold_left
            (fun acc piece =>
               match declaration piece with
               | Some (k, v) => if eqb k (lit prop) then Some v else acc
               | None => acc
               end)
            (split 59%N (trim st)) None
      end
  end.

End Cheerio.

Import Cheerio.

(* ===================================================================== *)
(** ** The platform: libraries the sources call *)
(* ===================================================================== *)

(** Library functions outside the repository, taken as they come:
    date-fns with date-fns-tz, the percent-decoding of Node's
    [querystring], cheerio's serializer and image-to-base64.  What is
    proved below holds for every platform. *)
Class Platform := {
  (** JavaScript's [Date]. *)
  Date : Type;
  (** [zonedTimeToUtc(parse(date, format, new Date()), zone)]. *)
  zonedParse : jsstring -> string -> string -> result Date;
  (** [querystring.unescape]. *)
  unescape : jsstring -> jsstring;
  (** The markup of a list of nodes, as [.html()] returns it. *)
  serialize : list node -> jsstring;
  (** [imageToBase64(url)]. *)
  imageToBase64 : jsstring -> result jsstring
}.

(** *** [querystring.parse] *)

Module Querystring.
Section Parse.
Context {P : Platform}.

(** One [key=value] piece: split at the first [=], both sides decoded;
    a piece without [=] has the empty value. *)
Definition pair (piece : jsstring) : jsstring * jsstring :=
  match indexOf [61%N] piece with
  | Some i => (unescape (firstn i piece), unescape (skipn (S i) piece))
  | None => (unescape piece, [])
  end.

(** The pairs of a query string in order: pieces are separated by [&],
    the first 1000 pieces are read ([maxKeys]) and the empty ones
    among them are skipped. *)
Definition parse (qs : jsstring) : list (jsstring * jsstring) :=
  map pair (filter truthy (firstn 1000 (split 38%N qs))).

(** [parse(qs)[key]]: [None] is [undefined]; a key bound once gives
    its value, a key bound several times the array of its values. *)
Definition get (key : string) (ps : list (jsstring * jsstring))
  : option (list jsstring) :=
  match map snd (filter (fun kv => eqb (fst kv) (lit key)) ps) with
  | [] => None
  | vs => Some vs
  end.

(** [.toString()] of such a value: an array is joined with commas. *)
Fixpoint toString (vs : list jsstring) : jsstring :=
  match vs with
  | [] => []
  | [v] => v
  | v :: vs' => v ++ 44%N :: toString vs'
  end.

(** [querystring.parse(qs)[key].toString()]. *)
Definition param (key : string) (qs : jsstring) : result jsstring :=
  vs <- deref (get key (parse qs)) ;; Ok (toString vs).

End Parse.
End Querystring.

(* ===================================================================== *)
(** ** interfaces.ts *)
(* ===================================================================== *)

Record Session := {
  uuid : jsstring;
  id : jsstring;
  token : option jsstring
}.

Inductive Language := Fi | Sv | En | Da.

(** The string value of an enum member. *)
Definition code (l : Language) : string :=
  match l with
  | Fi => "fi-FI"
  | Sv => "sv-SE"
  | En => "en-GB"
  | Da => "da-DK"
  end.

(* ===================================================================== *)
(** ** The HTTP transport (axios) *)
(* ===================================================================== *)

(** A function of the sources is modelled as a function of what its
    requests receive.  The requests themselves (address, cookies, form
    fields) are not modelled: no branch of the sources depends on
    them.

    A response: its status, the [Location] and [Set-Cookie] headers,
    the body, and the tree [cheerio.load] builds from the body. *)
Record response := {
  status : Z;
  location : option jsstring;
  setCookie : option (list jsstring);
  data : jsstring;
  document : list node
}.

(** What a request receives: a response, or none at all. *)
Inductive reply := Reply (r : response) | NoReply.

(** An axios promise: fulfilled with the response, or rejected with an
    error whose [response] may be undefined. *)
Inductive settled := Fulfilled (r : response) | Rejected (r : option response).

(** With the default [validateStatus] the promise is fulfilled exactly
    for a status of class 2xx.  Redirects are not followed
    ([maxRedirects: 0]), so a 3xx response rejects it. *)
Definition axios (rp : reply) : settled :=
  match rp with
  | Reply r =>
      if ((200 <=? status r) && (status r <? 300))%Z then Fulfilled r
      else Rejected (Some r)
  | NoReply => Rejected None
  end.

(** A response of class 3xx. *)
Definition isRedirect (r : response) : bool :=
  ((300 <=? status r) && (status r <? 400))%Z.

(** [error.response.status === 302], for an error with a response. *)
Definition is302 (r : response) : bool := (status r =? 302)%Z.

(** [a === b] for a string and a possibly undefined value. *)
Definition strictEq (a : option jsstring) (b : jsstring) : bool :=
  match a with
  | Some x => eqb x b
  | None => false
  end.

(** [error.response.headers['set-cookie'].join('').match(re)[1]]. *)
Definition cookieMatch (prefix suffix : list atom) (r : response)
  : result jsstring :=
  cookies <- deref (setCookie r) ;;
  deref (regexMatch prefix suffix (join cookies)).

(* ===================================================================== *)
(** ** A session object mutated in place *)
(* ===================================================================== *)

(** Computations that may assign to the fields of the one session
    object in use and may throw: the object's state is threaded, and
    is kept when an exception is thrown. *)
Definition St (A : Type) := Session -> Session * result A.

Definition ret {A} (a : A) : St A := fun s => (s, Ok a).
Definition throw {A} (e : error) : St A := fun s => (s, Throw e).
Definition lift {A} (r : result A) : St A := fun s => (s, r).
Definition read : St Session := fun s => (s, Ok s).

(** [session.token = t]. *)
Definition assignToken (t : jsstring) : St unit :=
  fun s => ({| uuid := uuid s; id := id s; token := Some t |}, Ok tt).

Definition bindSt {A B} (m : St A) (k : A -> St B) : St B :=
  fun s =>
    match m s with
    | (s', Ok a) => k a s'
    | (s', Throw e) => (s', Throw e)
    end.

Notation "x <~ m ;; k" := (bindSt m (fun x => k))
  (at level 61, m at next level, right associativity).

(** [!session.token]: no token, or the empty string. *)
Definition noToken (s : Session) : bool :=
  match token s with
  | Some t => negb (truthy t)
  | None => true
  end.

(* ===================================================================== *)
(** ** utilities.ts: what its two revisions share *)
(* ===================================================================== *)

Module Utilities.
Section Shared.
Context {P : Platform}.

(** The expression of [matchLocale]: the marker [__cultureInfo = {],
    the quoted word [name], a colon and an opening quote; then the
    lazy group; then a closing quote, a comma and a quote. *)
Definition cultureInfoPrefix : list atom :=
  lits "__cultureInfo = {" ++ Lit dquote :: lits "name" ++ Lit dquote
    :: lits ":" ++ [Lit dquote].

Definition cultureInfoSuffix : list atom := [Lit dquote; Lit 44%N; Lit dquote].

Definition matchLocale (html : jsstring) : result Language :=
  match regexMatch cultureInfoPrefix cultureInfoSuffix html with
  | None => Throw (Error "Failed to match the locale")
  | Some locale =>
      if eqb locale (lit "fi-FI") then Ok Fi
      else if eqb locale (lit "sv-SE") then Ok Sv
      else if eqb locale (lit "en-GB") then Ok En
      else if eqb locale (lit "da-DK") then Ok Da
      else Throw (Error "Failed to match the locale")
  end.

(** The table of date formats of [parseLocalizedDate]. *)
Definition dateFormat (locale : Language) : string :=
  match locale with
  | Fi => "d.M.yyyy HH:mm:ss"
  | Sv => "yyyy-MM-dd HH:mm:ss"
  | En => "dd/MM/yyyy HH:mm:ss"
  | Da => "dd-MM-yyyy HH:mm:ss"
  end.

Definition parseLocalizedDate (date : jsstring) (locale : Language)
  : result Date :=
  zonedParse date (dateFormat locale) "Europe/Helsinki".

(** The table of event targets of [setSessionLanguage]. *)
Definition eventTarget (language : Language) : string :=
  match language with
  | Fi => "ctl00$header$Kieli_fiFI"
  | Sv => "ctl00$header$Kieli_svSE"
  | En => "ctl00$header$Kieli_enGB"
  | Da => "ctl00$header$LinkButton1"
  end.

Definition indexPage : jsstring := lit "https://tarjouspalvelu.fi/Default/Index".

(** The handler both revisions of [companySlugToId] pass to [.catch]:
    it throws for the index page and otherwise computes the value
    assigned to [id]. *)
Definition slugHandler (err : option response) : result number :=
  r <- deref err ;;
  if strictEq (location r) indexPage
  then Throw (Error "Invalid company slug")
  else
    loc <- deref (location r) ;;
    p <- Querystring.param "p" (substr 14 loc) ;;
    Ok (parseInt p).

(** The handler both revisions of [loginToSession] run on a rejected
    POST whose status is 302: the token is read from the cookies and
    assigned to the session. *)
Definition takeToken (r : response) : St unit :=
  t <~ lift (cookieMatch (lits "TarjPalv=") (lits ";") r) ;;
  assignToken t.

(** The culture the response cookies confirm:
    [/culture=(.*?)&Expires/]. *)
Definition confirmedLanguage (r : response) : result jsstring :=
  cookieMatch (lits "culture=") (lits "&Expires") r.

End Shared.
End Utilities.

Import Utilities.

(* ===================================================================== *)
(** ** utilities.ts, the revision whose login takes a company slug
       (src/unnamed/part_000) *)
(* ===================================================================== *)

Module Utilities000.
Section Revision.
Context {P : Platform}.

(** [companySlugToId]: [head] is what the HEAD request receives. *)
Definition companySlugToId (head : reply) : result number :=
  id <- match axios head with
        | Fulfilled _ => Ok None
        | Rejected err => n <- slugHandler err ;; Ok (Some n)
        end ;;
  match id with
  | Some n =>
      if truthyNumber n then Ok n
      else Throw (Error "Failed getting company ID")
  | None => Throw (Error "Failed getting company ID")
  end.

(** [getSession]. *)
Definition getSession (head : reply) : result Session :=
  found <-
    match axios head with
    | Fulfilled _ => Ok None
    | Rejected err =>
        r <- deref err ;;
        if strictEq (location r) indexPage
        then Throw (Error "Invalid company slug")
        else
          g <- Querystring.param "g"
                 (match location r with Some l => l | None => [] end) ;;
          i <- cookieMatch (lits "TP=") (lits ";") r ;;
          Ok (Some (g, i))
    end ;;
  match found with
  | Some (g, i) =>
      if truthy g && truthy i
      then Ok {| uuid := g; id := i; token := None |}
      else Throw (Error "Failed getting session")
  | None => Throw (Error "Failed getting session")
  end.

(** The body of [loginToSession] once the session object is at hand:
    [headId] is what [companySlugToId] receives, [get] and [post] what
    the form request and the login request receive. *)
Definition login (headId get post : reply) : St unit :=
  _ <~ lift (companySlugToId headId) ;;
  _ <~ match axios get with
       | Fulfilled response => ret tt
       | Rejected err =>
           r <~ lift (deref err) ;;
           if is302 r then throw (Error "Failed to load page, bad session?")
           else throw (Error "Failed to load page")
       end ;;
  _ <~ match axios post with
       | Fulfilled _ => ret tt
       | Rejected err =>
           r <~ lift (deref err) ;;
           if is302 r then takeToken r
           else throw (Error "Failed to log in, bad username/password?")
       end ;;
  session <~ read ;;
  if noToken session
  then throw (Error "Failed to log in, bad username/password?")
  else ret tt.

(** [loginToSession(slug, username, password, session?)]: without a
    session one is created with [getSession] ([headSession] is what
    that request receives).  The result is the final state of the
    session object, if there is one, and [Ok tt] when that object is
    returned. *)
Definition loginToSession (headSession headId get post : reply)
    (session : option Session) : option Session * result unit :=
  match session with
  | Some s => let '(s', r) := login headId get post s in (Some s', r)
  | None =>
      match getSession headSession with
      | Ok s => let '(s', r) := login headId get post s in (Some s', r)
      | Throw e => (None, Throw e)
      end
  end.

(** [setSessionLanguage]: returns the session it was given. *)
Definition setSessionLanguage (get post : reply) (language : Language)
    (session : Session) : result Session :=
  _ <- match axios get with
       | Fulfilled response => Ok tt
       | Rejected err =>
           r <- deref err ;;
           if is302 r
           then Throw (Error "Failed to load page, invalid session?")
           else Throw (Error "Failed to load page")
       end ;;
  _ <- match axios post with
       | Fulfilled _ => Ok tt
       | Rejected err =>
           r <- deref err ;;
           if is302 r then
             setLanguage <- confirmedLanguage r ;;
             if eqb (lit (code language)) setLanguage then Ok tt
             else Throw (Error "Response has an unexpected language")
           else Throw (Error "Error setting the language, invalid session?")
       end ;;
  Ok session.

(** [buildAttachmentLink]. *)
Definition buildAttachmentLink (fileUuid : jsstring) : jsstring :=
  lit "https://tarjouspalvelu.fi/Document/Open/?fileType=TarjPyynTied&id="
    ++ fileUuid.

End Revision.
End Utilities000.

(* ===================================================================== *)
(** ** utilities.ts, the revision whose login takes a company id
       (src/unnamed/part_001) *)
(* ===================================================================== *)

Module Utilities001.
Section Revision.
Context {P : Platform}.

(** [companySlugToId]: [id] is declared without a value and returned
    as it is; [None] is [undefined]. *)
Definition companySlugToId (head : reply) : result (option number) :=
  match axios head with
  | Fulfilled _ => Ok None
  | Rejected err => n <- slugHandler err ;; Ok (Some n)
  end.

(** [loginToSession(companyId, username, password, session)]: the
    final state of the session object, and [Ok tt] when it is
    returned. *)
Definition loginToSession (get post : reply) : St unit :=
  _ <~ match axios get with
       | Fulfilled response => ret tt
       | Rejected _ => throw (Error "Failed to load index page, bad session?")
       end ;;
  _ <~ match axios post with
       | Fulfilled _ => ret tt
       | Rejected err =>
           r <~ lift (deref err) ;;
           if is302 r then takeToken r else ret tt
       end ;;
  session <~ read ;;
  if noToken session
  then throw (Error "Failed to log in, bad username/password?")
  else ret tt.

(** [setSessionLanguage]: returns the session it was given. *)
Definition setSessionLanguage (get post : reply) (language : Language)
    (session : Session) : result Session :=
  _ <- match axios get with
       | Fulfilled response => Ok tt
       | Rejected _ => Throw (Error "Failed to load index page, bad session?")
       end ;;
  _ <- match axios post with
       | Fulfilled _ => Ok tt
       | Rejected err =>
           r <- deref err ;;
           if is302 r then
             setLanguage <- confirmedLanguage r ;;
             if eqb (lit (code language)) setLanguage then Ok tt
             else Throw (Error "Response has an unexpected language")
           else Ok tt
       end ;;
  Ok session.

End Revision.
End Utilities001.

(* ===================================================================== *)
(** ** The entities of interfaces.ts *)
(* ===================================================================== *)

Module Company.
Record t := {
  id : number;
  slug : jsstring;
  name : jsstring;
  logo : option jsstring
}.
End Company.

Module Dps.
Section Entity.
Context {P : Platform}.
(** [DynamicPurchasingSystem]; [None] is [undefined] in
    [additionalDesc] and [null] in the deadline fields. *)
Record t := {
  id : number;
  customId : jsstring;
  unit : jsstring;
  title : jsstring;
  shortDescription : jsstring;
  isBeingCorrected : bool;
  additionalDesc : option jsstring;
  deadline : option Date;
  originalDeadline : option jsstring
}.
End Entity.
End Dps.

Module Attachment.
(** [NoticeAttachment]; a link without [href] leaves [fileUuid]
    undefined. *)
Record t := {
  fileName : jsstring;
  fileUuid : option jsstring
}.
End Attachment.

Module Notice.
Section Entity.
Context {P : Platform}.
(** [Notice]: a field declared optional is [None] when the object has
    no such key; the deadline fields are [None] for [null];
    [description] is [Some None] for [null]. *)
Record t := {
  id : number;
  customId : jsstring;
  isBeingCorrected : option bool;
  published : option Date;
  originalPublished : option jsstring;
  deadline : option Date;
  originalDeadline : option jsstring;
  unit : jsstring;
  title : jsstring;
  flags : list jsstring;
  types : list jsstring;
  shortDescription : option jsstring;
  description : option (option jsstring);
  authorityType : option jsstring;
  category : option jsstring;
  attachments : option (list Attachment.t);
  links : option (list jsstring)
}.
End Entity.
End Notice.

Module Notices.
Section Entity.
Context {P : Platform}.
Record t := {
  dynamicPurchasingSystems : list Dps.t;
  notices : list Notice.t;
  language : Language
}.
End Entity.
End Notices.

(* ===================================================================== *)
(** ** company.ts *)
(* ===================================================================== *)

(** Truthiness of a string that may be undefined. *)
Definition truthyOpt (o : option jsstring) : bool :=
  match o with
  | Some v => truthy v
  | None => false
  end.

(** The elements of [l] the loop body keeps, in order; the first
    exception ends the loop. *)
Fixpoint collect {A B} (f : A -> result (option B)) (l : list A)
  : result (list B) :=
  match l with
  | [] => Ok []
  | x :: l' =>
      y <- f x ;;
      ys <- collect f l' ;;
      Ok (match y with Some b => b :: ys | None => ys end)
  end.

Module CompanyTs.
Section Source.
Context {P : Platform}.

(** One turn of the loop of [getCompanies] on the cell
    [companiesTable[i]]: [Ok None] is [continue]. *)
Definition companyOfCell (getLogos : bool) (cell : node)
  : result (option Company.t) :=
  if negb (truthyOpt (attr "style" [cell])) then Ok None
  else if truthyOpt (attr "colspan" [cell]) then Ok None
  else
    let src := attr "src" (at_ 0 (find [T "img"] [cell])) in
    let id := option_map (substr 15) src in
    if negb (truthyOpt id) then Throw (Error "Failed getting company id")
    else
      id <- deref id ;;
      let id := parseInt id in
      let slug :=
        option_map (substr 26) (attr "href" (at_ 0 (find [T "a"] [cell]))) in
      if negb (truthyOpt slug) then Throw (Error "Failed getting company slug")
      else
        slug <- deref slug ;;
        let name := text (at_ 0 (find [T "p"] [cell])) in
        logo <- (if getLogos then
                   src <- deref src ;;
                   b <- imageToBase64 (lit "https://tarjouspalvelu.fi" ++ src) ;;
                   Ok (Some b)
                 else Ok None) ;;
        Ok (Some {| Company.id := id; Company.slug := slug;
                    Company.name := name; Company.logo := logo |}).

(** The cells of the index page: [$('tr > td')]. *)
Definition companiesTable (doc : list node) : selection :=
  select [T "td"; T "tr"] doc.

(** [getCompanies(getLogos)]; the later revision is [getCompanies()],
    which is this one at [false] without the [logo] key.  [get] is
    what the request for the index page receives; no handler catches
    its failure, and the test [!response] of the earlier revision
    never holds for a fulfilled request. *)
Definition getCompanies (get : reply) (getLogos : bool)
  : result (list Company.t) :=
  match axios get with
  | Rejected _ => Throw AxiosError
  | Fulfilled response =>
      collect (companyOfCell getLogos) (companiesTable (document response))
  end.

(** The decoder of one flag icon in [getNotices]: two patterns,
    [/ikoni_(.*?).gif/] and then [/images\/(.*?)_ikoni/]. *)
Definition flagOfIcon (el : node) : result jsstring :=
  let flag :=
    match attr "src" [el] with
    | Some src => regexMatch (lits "ikoni_") (Dot :: lits "gif") src
    | None => None
    end in
  let flag :=
    match flag with
    | Some f => Some f
    | None =>
        match attr "src" [el] with
        | Some src => regexMatch (lits "images/") (lits "_ikoni") src
        | None => None
        end
    end in
  match flag with
  | Some f => Ok f
  | None => Throw (Error "Failed to parse flag image")
  end.

(** [parseInt(querystring.parse(href || '').tpID.toString())] for the
    link of cell 6. *)
Definition idOfRow (row : selection) : result number :=
  let href := attr "href" (find [T "a"] (at_ 6 row)) in
  tpID <- Querystring.param "tpID"
            (if truthyOpt href then match href with Some h => h | None => [] end
             else []) ;;
  Ok (parseInt tpID).

(** The text of the elements of class [punainenfontti] below cell 3:
    [$(row[3]).find($('.punainenfontti')).text()].  [find] keeps, of
    the elements of that class in the document, those strictly below
    the cell; these are the elements of that class found below it. *)
Definition markerText (row : selection) : jsstring :=
  text (find [C (HasClass "punainenfontti")] (at_ 3 row)).

(** One turn of the first loop of [getNotices]: [row] is
    [$(dpsRows[i]).find('td')]. *)
Definition dpsOfRow (locale : Language) (row : selection) : result Dps.t :=
  let shortDescription := trim (text (at_ 3 row)) in
  let isBeingCorrected :=
    strictEq (attr "class" (find [T "div"] (at_ 3 row))) (lit "punainenfontti") in
  id <- idOfRow row ;;
  let additionalDesc :=
    if isBeingCorrected
    then Some (trim (replace shortDescription (markerText row) []))
    else None in
  deadline <- parseLocalizedDate (trim (text (at_ 4 row))) locale ;;
  Ok {| Dps.id := id;
        Dps.customId := trim (text (at_ 1 row));
        Dps.unit := trim (text (at_ 0 row));
        Dps.title := trim (text (at_ 2 row));
        Dps.shortDescription := shortDescription;
        Dps.isBeingCorrected := isBeingCorrected;
        Dps.additionalDesc := additionalDesc;
        Dps.deadline := Some deadline;
        Dps.originalDeadline := Some (trim (text (at_ 4 row))) |}.

(** The title of a notice row. *)
Definition titleOfRow (row : selection) : jsstring :=
  replace (trim (text (find [T "a"] (at_ 2 row))))
          (trim (text (at_ 0 row)) ++ lit " / ") [].

(** One turn of the second loop of [getNotices]: [row] is
    [$(noticeRows[i]).find('td')]. *)
Definition noticeOfRow (locale : Language) (row : selection)
  : result Notice.t :=
  id <- idOfRow row ;;
  flags <- mapM flagOfIcon (find [T "img"] (at_ 2 row)) ;;
  let types := map textOf (find [T "span"] (at_ 2 row)) in
  let hasDeadline := negb (Nat.eqb (List.length (trim (text (at_ 4 row)))) 0) in
  deadline <- (if hasDeadline
               then d <- parseLocalizedDate (trim (text (at_ 4 row))) locale ;;
                    Ok (Some d)
               else Ok None) ;;
  Ok {| Notice.id := id;
        Notice.customId := trim (text (at_ 0 row));
        Notice.unit := trim (text (at_ 1 row));
        Notice.flags := flags;
        Notice.title := titleOfRow row;
        Notice.types := types;
        Notice.shortDescription := Some (trim (text (find [T "span"] (at_ 3 row))));
        Notice.isBeingCorrected :=
          Some (strictEq (css "color" (find [T "span"] (at_ 3 row))) (lit "red"));
        Notice.deadline := deadline;
        Notice.originalDeadline :=
          if hasDeadline then Some (trim (text (at_ 4 row))) else None;
        Notice.published := None;
        Notice.originalPublished := None;
        Notice.description := None;
        Notice.authorityType := None;
        Notice.category := None;
        Notice.attachments := None;
        Notice.links := None |}.

(** The rows of the two tables, each as its [td] elements. *)
Definition dpsRows (doc : list node) : list selection :=
  map (fun tr => find [T "td"] [tr])
      (select [T "tr"; T "tbody"; C (HasId "DPSIlmoituslista")] doc).

Definition noticeRows (doc : list node) : list selection :=
  map (fun tr => find [T "td"] [tr])
      (select [T "tr"; T "tbody"; C (HasId "ctl00_PageContent_GridView1")] doc).

(** [getNotices(companyId, session)]: [get] is what the request for
    the notices page receives. *)
Definition getNotices (get : reply) : result Notices.t :=
  response <-
    match axios get with
    | Fulfilled r => Ok r
    | Rejected err =>
        r <- deref err ;;
        if is302 r then Throw (Error "Failed to load notices, bad session?")
        else Throw (Error "Failed to load notices")
    end ;;
  locale <- matchLocale (data response) ;;
  dps <- mapM (dpsOfRow locale) (dpsRows (document response)) ;;
  ns <- mapM (noticeOfRow locale) (noticeRows (document response)) ;;
  Ok {| Notices.dynamicPurchasingSystems := dps;
        Notices.notices := ns;
        Notices.language := locale |}.

End Source.
End CompanyTs.

(* ===================================================================== *)
(** ** notice.ts *)
(* ===================================================================== *)

Module NoticeTs.
Section Source.
Context {P : Platform}.

(** The handler of the three requests of [getNotice]. *)
Definition loaded (rp : reply) : result response :=
  match axios rp with
  | Fulfilled r => Ok r
  | Rejected err =>
      r <- deref err ;;
      if is302 r then Throw (Error "Failed to load notice, bad session?")
      else Throw (Error "Failed to load notice")
  end.

(** The decoder of one flag icon in [getNotice]: the single pattern
    [/ikoni_(.*?).gif/]. *)
Definition flagOfIcon (el : node) : result jsstring :=
  match attr "src" [el] with
  | Some src =>
      match regexMatch (lits "ikoni_") (Dot :: lits "gif") src with
      | Some f => Ok f
      | None => Throw (Error "Failed to parse flag image")
      end
  | None => Throw (Error "Failed to parse flag image")
  end.

(** The part of an attachment link that is replaced by nothing. *)
Definition downloadPath : jsstring :=
  lit "../Document/Open/?fileType=TarjPyynTied&id=".

(** One attachment link of the attachments page. *)
Definition attachmentOfLink (el : node) : Attachment.t :=
  {| Attachment.fileName := textOf el;
     Attachment.fileUuid :=
       option_map (fun href => replace href downloadPath []) (attr "href" [el]) |}.

(** [.map((i, el) => a(el).attr('href')).get()]: an element for which
    the callback returns [undefined] is left out. *)
Definition hrefs (sel : selection) : list jsstring :=
  flat_map (fun el => match attr "href" [el] with
                      | Some h => [h]
                      | None => []
                      end) sel.

(** [sel.html()]: the markup of what the first element contains;
    [None] is [null]. *)
Definition html (sel : selection) : option jsstring :=
  match sel with
  | [] => None
  | n :: _ => Some (serialize (childrenOf n))
  end.

(** The notice object, from the trees [d], [a] and [n] of the details
    page, the attachments page and the processing page. *)
Definition noticeOf (noticeId : number) (locale : Language)
    (d a n : list node) : result Notice.t :=
  let due := text (select [C (HasId "valDueDate")] d) in
  let hasDeadline := negb (Nat.eqb (List.length due) 0) in
  published <- parseLocalizedDate (text (select [C (HasId "valIlmPaiva")] d))
                 locale ;;
  deadline <- (if hasDeadline
               then t <- parseLocalizedDate (split0 (lit "  (UTC") due) locale ;;
                    Ok (Some t)
               else Ok None) ;;
  flags <- mapM flagOfIcon (select [TC "img" (AttrEq "align" "absmiddle")] n) ;;
  Ok {| Notice.id := noticeId;
        Notice.customId := text (select [C (HasId "valHankTunniste")] d);
        Notice.published := Some published;
        Notice.originalPublished := Some (text (select [C (HasId "valIlmPaiva")] d));
        Notice.deadline := deadline;
        Notice.originalDeadline :=
          if hasDeadline then Some (split0 (lit "  (UTC") due) else None;
        Notice.unit := text (select [C (HasId "valHankYksMarkNimi")] d);
        Notice.title := text (select [C (HasId "valHankNimi")] d);
        Notice.flags := flags;
        Notice.types :=
          map textOf (select [TC "span" (AttrContains "class" "harmaa")] n);
        Notice.description := Some (html (select [C (HasId "valKuvaus")] d));
        Notice.authorityType := Some (text (select [C (HasId "valHankYksLuo")] d));
        Notice.category := Some (text (select [C (HasId "valHankLaj")] d));
        Notice.attachments :=
          Some (map attachmentOfLink
                  (select [TC "a" (AttrContains "id" "TiedostoLinkki")] a));
        Notice.links :=
          Some (hrefs (select [TC "a" (AttrContains "id" "HyperLink1")] a));
        Notice.isBeingCorrected := None;
        Notice.shortDescription := None |}.

(** [getNotice(companyId, noticeId, session)]: [processing], [details]
    and [attachments] are what the three requests receive.  The last
    two run together; when both fail the model reports the failure of
    the details page. *)
Definition getNotice (processing details attachments : reply)
    (noticeId : number) : result Notice.t :=
  noticePage <- loaded processing ;;
  locale <- matchLocale (data noticePage) ;;
  detailsResponse <- loaded details ;;
  attachmentsResponse <- loaded attachments ;;
  noticeOf noticeId locale (document detailsResponse)
    (document attachmentsResponse) (document noticePage).

End Source.
End NoticeTs.

(* ===================================================================== *)
(** ** tender.ts *)
(* ===================================================================== *)

Module TenderTs.



End TenderTs.

(* ===================================================================== *)
(** ** A platform to run the model on examples *)
(* ===================================================================== *)

(** Dates are kept as the text they were parsed from, and a text
    without a digit is not a date; nothing is percent-encoded; the
    markup of nodes is their text; an image has an empty encoding. *)
Definition examplePlatform : Platform := {|
  Date := jsstring;
  zonedParse := fun date _ _ =>
    if existsb (fun c => (N.leb 48 c && N.leb c 57)%N) date then Ok date
    else Throw (Error "Invalid time value");
  unescape := fun s => s;
  serialize := flat_map textOf;
  imageToBase64 := fun _ => Ok []
|}.

(** An element with one attribute and a text, and a table cell. *)
Definition el1 (t k v body : string) : node :=
  Elem (lit t) [(lit k, lit v)] [Text (lit body)].

Definition td (cs : list node) : node := Elem (lit "td") [] cs.

(** A response with a body and its tree, and one with headers only. *)
Definition page (st : Z) (body : jsstring) (doc : list node) : response :=
  {| status := st; location := None; setCookie := None;
     data := body; document := doc |}.

Definition headers (st : Z) (loc : option jsstring)
    (cookies : option (list jsstring)) : response :=
  {| status := st; location := loc; setCookie := cookies;
     data := []; document := [] |}.

(* ===================================================================== *)
(** ** Notions the properties are stated with *)
(* ===================================================================== *)


(** The absolute URL a relative link of the attachments page denotes.
    The page is [/Tarjouspalvelu/TarjousPyyntoLiitteet.aspx] of the
    site, so a leading [../] leads to the root of the site. *)
Definition absoluteUrl (href : jsstring) : jsstring :=
  if startsWith (lit "../") href
  then lit "https://tarjouspalvelu.fi/" ++ skipn 3 href
  else lit "https://tarjouspalvelu.fi/Tarjouspalvelu/" ++ href.

(** The links [getNotice] reads the attachments from. *)
Definition fileLinks (a : list node) : selection :=
  select [TC "a" (AttrContains "id" "TiedostoLinkki")] a.

(* ===================================================================== *)
(** ** Example pages *)
(* ===================================================================== *)

(** The script line from which [matchLocale] reads the culture. *)
Definition cultureScript (culture : string) : jsstring :=
  lit "var __cultureInfo = {" ++ dquote :: lit "name" ++ dquote :: lit ":"
    ++ dquote :: lit culture ++ dquote :: lit "," ++ dquote
    :: lit "numberFormat" ++ [dquote].

(** A processing page with one flag icon and one type tag. *)
Definition processingPage : response :=
  page 200 (cultureScript "fi-FI")
    [Elem (lit "div") []
       [Elem (lit "img")
          [(lit "align", lit "absmiddle"); (lit "src", lit "/images/ikoni_eu.gif")]
          [];
        el1 "span" "class" "harmaa teksti" "Tavarahankinta"]].

(** A details page with a deadline. *)
Definition detailsPage : response :=
  page 200 []
    [Elem (lit "div") []
       [el1 "span" "id" "valHankTunniste" "HEL 2024-1";
        el1 "span" "id" "valIlmPaiva" "1.2.2024 10:00:00";
        el1 "span" "id" "valDueDate" "1.3.2024 12:00:00  (UTC+02:00)";
        el1 "span" "id" "valHankYksMarkNimi" "Helsingin kaupunki";
        el1 "span" "id" "valHankNimi" "Kalusteet";
        el1 "div" "id" "valKuvaus" "Toimistokalusteiden hankinta"]].

(** An attachments page with one file and one external link. *)
Definition attachmentsPage : response :=
  page 200 []
    [Elem (lit "a")
       [(lit "id", lit "ctl00_TiedostoLinkki_0");
        (lit "href",
         lit "../Document/Open/?fileType=TarjPyynTied&id=0f8fad5b-d9cb-469f")]
       [Text (lit "tarjouspyynto.pdf")];
     Elem (lit "a")
       [(lit "id", lit "ctl00_HyperLink1"); (lit "href", lit "https://example.org/")]
       [Text (lit "Lisatiedot")]].

(** The trimmed text of cell [i] of a row, and the title a notice row
    displays: the trimmed text of the link of cell 2. *)
Definition cellText (i : nat) (row : selection) : jsstring :=
  trim (text (at_ i row)).

Definition displayedTitle (row : selection) : jsstring :=
  trim (text (find [T "a"] (at_ 2 row))).

(** A row of the notices table: identifier, unit, title link with one
    flag icon and one type tag, description, deadline, an empty cell
    and the link that carries the notice id. *)
Definition noticeRow (customId unitName title color deadline : string)
  : selection :=
  [td [Text (lit customId)];
   td [Text (lit unitName)];
   td [Elem (lit "img") [(lit "src", lit "/images/ikoni_eu.gif")] [];
       el1 "a" "href" "tpKasittely.aspx?p=13&tpID=77" title;
       el1 "span" "class" "harmaa" "Tavarahankinta"];
   td [el1 "span" "style" color " Kalusteiden hankinta "];
   td [Text (lit deadline)];
   td [];
   td [el1 "a" "href" "tpKasittely.aspx?p=13&g=0a1b&tpID=77" "Avaa"]].

(** A row whose title repeats the identifier of cell 0, and one whose
    title repeats the unit of cell 1. *)
Definition idTitledRow : selection :=
  noticeRow "UnitX" "Hankintapalvelut" " UnitX / Actual Title " "color: red"
    "1.3.2024 12:00:00".

Definition unitTitledRow : selection :=
  noticeRow "ID-1" "UnitX" "UnitX / Actual Title" "color: blue" "".

(** A row of the table of dynamic purchasing systems: unit,
    identifier, title, description, deadline, an empty cell and the
    link that carries the id. *)
Definition dpsRow (description : list node) (deadline : string) : selection :=
  [td [Text (lit "Hankintapalvelut")];
   td [Text (lit "DPS 7")];
   td [Text (lit "Kalusteiden DPS")];
   td description;
   td [Text (lit deadline)];
   td [];
   td [el1 "a" "href" "dps.aspx?p=13&tpID=912" "Avaa"]].

(** A row being corrected: the marker element stands inside the
    description.  And a row that is not. *)
Definition correctedDpsRow : selection :=
  dpsRow [Text (lit " Puitejarjestely ");
          el1 "div" "class" "punainenfontti" "Korjauksessa";
          Text (lit " kalusteista ")]
         "31.12.2025 16:00:00".

Definition plainDpsRow : selection :=
  dpsRow [Text (lit " Puitejarjestely kalusteista ")] "31.12.2025 16:00:00".

Section DeadlinePairs.
Context {P : Platform}.

(** A deadline field and its raw text go together: both are [null],
    or the raw text is there and the deadline is the date parsed from
    it in the locale of the page. *)
Definition deadlinePair (locale : Language) (deadline : option Date)
    (originalDeadline : option jsstring) : Prop :=
  (deadline = None /\ originalDeadline = None)
  \/ (exists raw t,
         originalDeadline = Some raw /\ deadline = Some t
         /\ parseLocalizedDate raw locale = Ok t).

End DeadlinePairs.

(** A notices page with one row in each of its two tables. *)
Definition table (ident : string) (rows : list selection) : node :=
  Elem (lit "table") [(lit "id", lit ident)]
    [Elem (lit "tbody") [] (map (Elem (lit "tr") []) rows)].

Definition noticesPage : response :=
  page 200 (cultureScript "fi-FI")
    [Elem (lit "div") []
       [table "DPSIlmoituslista" [correctedDpsRow];
        table "ctl00_PageContent_GridView1" [idTitledRow; unitTitledRow]]].

(** A cell the loop of [getCompanies] passes over: its [style] is
    missing or empty, or it has a non-empty [colspan].  And a cell from
    which an id and a slug can be read: its first image has a [src]
    and its first link a [href] that reach beyond the stripped
    prefixes. *)
Definition spacer (cell : node) : bool :=
  negb (truthyOpt (attr "style" [cell])) || truthyOpt (attr "colspan" [cell]).

Definition extractable (cell : node) : bool :=
  truthyOpt (option_map (substr 15) (attr "src" (at_ 0 (find [T "img"] [cell]))))
  && truthyOpt (option_map (substr 26) (attr "href" (at_ 0 (find [T "a"] [cell])))).

(** The cell of a company: a link around its logo, and its name. *)
Definition companyCell (attrs : list (jsstring * jsstring)) : node :=
  Elem (lit "td") attrs
    [Elem (lit "a") [(lit "href", lit "https://tarjouspalvelu.fi/acme")]
       [Elem (lit "img") [(lit "src", lit "/Default/Image/42")] []];
     Elem (lit "p") [] [Text (lit "Acme Oy")]].

Definition acme : Company.t :=
  {| Company.id := Num 42; Company.slug := lit "acme";
     Company.name := lit "Acme Oy"; Company.logo := None |}.




(** A session that carries a token from an earlier login. *)
Definition staleSession : Session :=
  {| uuid := lit "0a1b"; id := lit "sess"; token := Some (lit "old-token") |}.

Definition freshSession : Session :=
  {| uuid := lit "0a1b"; id := lit "sess"; token := None |}.

(** The page with the form, and the answers to a POST: the page shown
    again with status 200, and a redirect with cookies. *)
Definition formPage : response := page 200 (cultureScript "fi-FI") [].

Definition shownAgain : response := page 200 (cultureScript "fi-FI") [].

Definition redirected (cookies : list string) : response :=
  headers 302 (Some (lit "/default.aspx?p=13&g=0a1b")) (Some (map lit cookies)).

(** The answers to the HEAD request for a slug: the redirect to the
    page of company 13, a redirect whose [p] is no number, the
    redirect to the index page, and a plain 200. *)
Definition toCompany : response :=
  headers 302 (Some (lit "/default.aspx?p=13&g=0a1b"))
    (Some [lit "ASP.NET_SessionId_TP=sess; path=/"]).

Definition toNowhere : response :=
  headers 302 (Some (lit "/default.aspx?p=&g=0a1b")) None.

Definition toIndex : response :=
  headers 302 (Some (lit "https://tarjouspalvelu.fi/Default/Index")) None.

Definition noRedirect : response := headers 200 None None.

(** The icon of a small procurement, whose file name follows the
    second naming convention only; and a processing page with it. *)
Definition smallProcurementIcon : node :=
  Elem (lit "img")
    [(lit "align", lit "absmiddle"); (lit "src", lit "/images/pienhankinta_ikoni.png")]
    [].

Definition smallProcurementPage : response :=
  page 200 (cultureScript "fi-FI") [Elem (lit "div") [] [smallProcurementIcon]].

(* ===================================================================== *)
(** ** utilities.ts: the functions left *)
(* ===================================================================== *)

Module UtilitiesTs.
Section Source.
Context {P : Platform}.

(** [getSessionLanguage(companyId, session)], the same in both
    revisions: [get] is what the request for the notices page
    receives. *)
Definition getSessionLanguage (get : reply) : result Language :=
  page <- match axios get with
          | Fulfilled r => Ok r
          | Rejected err =>
              r <- deref err ;;
              if is302 r then Throw (Error "Failed to load page, bad session?")
              else Throw (Error "Failed to load page")
          end ;;
  matchLocale (data page).

(** [getSession] of the revision of src/unnamed/part_001: [uuid] and
    [id] are declared without a value and returned as they are; [None]
    is [undefined]. *)
Definition getSession001 (head : reply)
  : result (option jsstring * option jsstring) :=
  match axios head with
  | Fulfilled _ => Ok (None, None)
  | Rejected err =>
      r <- deref err ;;
      if strictEq (location r) indexPage
      then Throw (Error "Invalid company slug")
      else
        g <- Querystring.param "g"
               (match location r with Some l => l | None => [] end) ;;
        i <- cookieMatch (lits "SessionId_TP=") (lits ";") r ;;
        Ok (Some g, Some i)
  end.

End Source.

Section YesOrNo.
(** [String.prototype.toLowerCase], with the full case mapping of the
    runtime. *)
Variable toLowerCase : jsstring -> jsstring.

(** The first token of [boolFromYesOrNo]: [kyll] and U+00E4. *)
Definition kylla : jsstring := lit "kyll" ++ [228%N].

(** [boolFromYesOrNo(text)]. *)
Definition boolFromYesOrNo (text : jsstring) : result bool :=
  let t := toLowerCase text in
  if eqb t kylla || eqb t (lit "ja") || eqb t (lit "yes") then Ok true
  else if eqb t (lit "ei") || eqb t (lit "nej") || eqb t (lit "no")
       then Ok false
       else Throw (Error "Failed to form a boolean from the given text").

End YesOrNo.
End UtilitiesTs.

(* ===================================================================== *)
(** ** company.ts: the functions left *)
(* ===================================================================== *)

Module CompanyMore.
Section Source.
Context {P : Platform}.

(** The expression of [getCompanyProcurementOrganizationId]: the word
    [HankOrgIdHidden], a quote, [ value=] and a quote; then the lazy
    group; then a quote and [ />]. *)
Definition hiddenIdBefore : jsstring :=
  lit "HankOrgIdHidden" ++ dquote :: lit " value=" ++ [dquote].

Definition hiddenIdAfter : jsstring := dquote :: lit " />".

(** [getCompanyProcurementOrganizationId(companyId, session)]: [get]
    is what the request for the company page receives. *)
Definition getCompanyProcurementOrganizationId (get : reply) : result number :=
  page <- match axios get with
          | Fulfilled r => Ok r
          | Rejected err =>
              r <- deref err ;;
              if is302 r then Throw (Error "Failed to load page, bad session?")
              else Throw (Error "Failed to load page")
          end ;;
  id <- deref (regexMatch (map Lit hiddenIdBefore) (map Lit hiddenIdAfter)
                 (data page)) ;;
  Ok (parseInt id).

(** [getCompanyProcurementUnits(procurementOrganizationId, session)]:
    the text of every [span] of the page. *)
Definition getCompanyProcurementUnits (get : reply) : result (list jsstring) :=
  page <- match axios get with
          | Fulfilled r => Ok r
          | Rejected err =>
              r <- deref err ;;
              if is302 r then Throw (Error "Failed to load notice, bad session?")
              else Throw (Error "Failed to load notice")
          end ;;
  Ok (map textOf (select [T "span"] (document page))).

End Source.
End CompanyMore.

(* ===================================================================== *)
(** ** tender.ts: the function left *)
(* ===================================================================== *)

Module TenderMore.
Section Source.
Context {P : Platform}.

(** The link [getTenderId] looks for. *)
Definition modifyLink (doc : list node) : option jsstring :=
  attr "href" (select [C (HasId "ctl00_PageContent_GridView1_ctl02_hlModify")] doc).

(** [getTenderId(companyId, noticeId, session)]: [get] is what the
    request for the page of tenders in progress receives. *)
Definition getTenderId (get : reply) : result jsstring :=
  page <- match axios get with
          | Fulfilled r => Ok r
          | Rejected err =>
              r <- deref err ;;
              if is302 r
              then Throw (Error "Failed to get the ID of the tender, bad session?")
              else Throw (Error "Failed to load tender")
          end ;;
  let link := modifyLink (document page) in
  if negb (truthyOpt link) then Throw (Error "No tenders in progress found")
  else
    link <- deref link ;;
    Querystring.param "tarjID" link.

End Source.
End TenderMore.

(* ===================================================================== *)
(** ** More notions and examples *)
(* ===================================================================== *)

(** The error the design document calls [NoTenderInProgress]. *)
Definition NoTenderInProgress := Error "No tenders in progress found".

(** A text without line terminators, over which the wildcard of a
    regular expression runs. *)
Definition oneLine (s : jsstring) : bool :=
  forallb (fun c => negb (isLineTerminator c)) s.

(** ASCII texts and their lower case. *)
Definition isAscii (s : jsstring) : Prop := Forall (fun c => (c < 128)%N) s.

Definition asciiLower (c : char) : char :=
  if (N.leb 65 c && N.leb c 90)%N then (c + 32)%N else c.

(** What is known of [toLowerCase] without its tables: on an ASCII
    text it lowers the letters A to Z and keeps the rest. *)
Definition lowersAscii (toLowerCase : jsstring -> jsstring) : Prop :=
  forall s, isAscii s -> toLowerCase s = map asciiLower s.

(** A lower case for examples: that of ASCII, other characters kept. *)
Definition exampleLower (s : jsstring) : jsstring := map asciiLower s.

(** The hidden field of a company page. *)
Definition hiddenField (value : string) : jsstring :=
  lit "<input type=hidden id=ctl00_PageContent_HankOrgIdHidden name=ctl00$PageContent$"
    ++ CompanyMore.hiddenIdBefore ++ lit value ++ CompanyMore.hiddenIdAfter.

(** A company page: the culture script on one line, the hidden field
    on the next. *)
Definition companyPage : response :=
  page 200 (cultureScript "sv-SE" ++ 10%N :: hiddenField "14" ++ lit "</form>") [].


Definition noTendersPage : response :=
  page 200 [] [Elem (lit "div") [] [Text (lit "Ei tarjouksia")]].

(** The two literal parts of the expression of [matchLocale], as
    texts. *)
Definition cultureBefore : jsstring :=
  lit "__cultureInfo = {" ++ dquote :: lit "name" ++ dquote :: lit ":" ++ [dquote].

Definition cultureAfter : jsstring := [dquote; 44%N; dquote].

(** The links of the attachments page that [getNotice] lists as
    external links. *)
Definition plainLinks (a : list node) : selection :=
  select [TC "a" (AttrContains "id" "HyperLink1")] a.

Definition hasHref (el : node) : bool :=
  match attr "href" [el] with Some _ => true | None => false end.

(** The text of the deadline field of a details page. *)
Definition dueText (d : list node) : jsstring :=
  text (select [C (HasId "valDueDate")] d).

(** A table body whose first row is a header row without [td] cells. *)
Definition headedNoticesPage : response :=
  page 200 (cultureScript "fi-FI")
    [table "ctl00_PageContent_GridView1"
       [[Elem (lit "th") [] [Text (lit "Tunniste")]]; idTitledRow]].

(** A notice row whose icon follows neither naming convention. *)
Definition strangeIconRow : selection :=
  [td [Text (lit "ID-2")];
   td [Text (lit "UnitX")];
   td [Elem (lit "img") [(lit "src", lit "/images/uusi.png")] [];
       el1 "a" "href" "tpKasittely.aspx?p=13&tpID=78" "Title"];
   td [];
   td [];
   td [];
   td [el1 "a" "href" "tpKasittely.aspx?p=13&tpID=78" "Avaa"]].

(** An index page whose company cell has no image. *)
Definition brokenListing : response :=
  page 200 []
    [Elem (lit "table") []
       [Elem (lit "tr") []
          [companyCell [(lit "style", lit "width:25%")];
           Elem (lit "td") [(lit "style", lit "width:25%")]
             [Elem (lit "p") [] [Text (lit "Nimeton")]]]]].


(* ===================================================================== *)
(** ** Facts about strings *)
(* ===================================================================== *)

Section StringFacts.

Lemma eqb_refl (a : jsstring) : eqb a a = true.
Proof. induction a as [|x a IH]; simpl; [|rewrite N.eqb_refl]; auto. Qed.

Lemma eqb_eq (a b : jsstring) : eqb a b = true <-> a = b.
Proof.
  split; [|intros ->; apply eqb_refl].
  revert b; induction a as [|x a IH]; intros [|y b]; simpl; try easy.
  rewrite andb_true_iff, N.eqb_eq. intros [-> H]. f_equal. auto.
Qed.

Lemma startsWith_app (p s : jsstring) : startsWith p (p ++ s) = true.
Proof. induction p as [|x p IH]; simpl; [|rewrite N.eqb_refl]; auto. Qed.

Lemma indexOf_unfold (pat s : jsstring) :
  indexOf pat s =
  if startsWith pat s then Some 0
  else match s with
       | [] => None
       | _ :: s' => option_map S (indexOf pat s')
       end.
Proof. destruct s; reflexivity. Qed.

Lemma indexOf_at_head (p s : jsstring) : indexOf p (p ++ s) = Some 0.
Proof. rewrite indexOf_unfold, startsWith_app. reflexivity. Qed.

Lemma skipn_past (A : Type) (p s : list A) : skipn (List.length p) (p ++ s) = s.
Proof. induction p; simpl; auto. Qed.

Lemma firstn_upto (A : Type) (p s : list A) : firstn (List.length p) (p ++ s) = p.
Proof. induction p; simpl; f_equal; auto. Qed.

(** Replacing a leading occurrence removes it. *)
Lemma replace_at_head (p s rep : jsstring) : replace (p ++ s) p rep = rep ++ s.
Proof.
  unfold replace. rewrite indexOf_at_head. simpl.
  now rewrite skipn_past.
Qed.




(** Without an occurrence nothing is replaced. *)
Lemma replace_absent (s pat : jsstring) :
  includes s pat = false -> replace s pat [] = s.
Proof. unfold includes, replace. now destruct (indexOf pat s). Qed.

End StringFacts.

(* ===================================================================== *)
(** ** Facts about loops and exceptions *)
(* ===================================================================== *)

Section LoopFacts.
Context {A B : Type}.

Lemma bind_ok {X Y} (m : result X) (k : X -> result Y) (y : Y) :
  bind m k = Ok y -> exists x, m = Ok x /\ k x = Ok y.
Proof. destruct m; simpl; [eauto|discriminate]. Qed.

(** A loop that ends without an exception has run its body on every
    element, in order. *)
Lemma mapM_ok (f : A -> result B) (l : list A) (ys : list B) :
  mapM f l = Ok ys -> Forall2 (fun x y => f x = Ok y) l ys.
Proof.
  revert ys; induction l as [|x l IH]; simpl; intros ys H.
  - injection H as <-. constructor.
  - apply bind_ok in H as (y & Hy & H).
    apply bind_ok in H as (ys' & Hys & H).
    injection H as <-. constructor; auto.
Qed.

Lemma Forall2_pick (R : A -> B -> Prop) (l : list A) (ys : list B) (x : A) :
  Forall2 R l ys -> In x l -> exists y, In y ys /\ R x y.
Proof.
  induction 1 as [|a b l ys Hab _ IH]; simpl; [easy|].
  intros [->|Hin]; [eauto|].
  destruct (IH Hin) as (y & Hy & Hr). eauto.
Qed.

(** One element on which the body throws makes the loop throw. *)
Lemma mapM_fails (f : A -> result B) (l : list A) (x : A) (e : error) :
  In x l -> f x = Throw e -> exists e', mapM f l = Throw e'.
Proof.
  intros Hin Hx. destruct (mapM f l) as [ys|e'] eqn:H; [|eauto].
  apply mapM_ok in H. destruct (@Forall2_pick _ _ _ _ H Hin) as (y & _ & Hy).
  congruence.
Qed.

End LoopFacts.

(** Take a chain of binds that ended in [Ok] apart. *)
Ltac unbind H :=
  repeat match type of H with
         | bind _ _ = Ok _ =>
             let x := fresh "x" in
             let Hx := fresh "Hx" in
             apply bind_ok in H as (x & Hx & H)
         end.

(* ===================================================================== *)
(** ** Tender removal *)
(* ===================================================================== *)

Section TenderRemoval.
Import TenderTs.


End TenderRemoval.

(* ===================================================================== *)
(** ** Attachments *)
(* ===================================================================== *)

Section Attachments.
Import NoticeTs Utilities000.
Context {P : Platform}.


Lemma attachment_uuid (el : node) (uuid : jsstring) :
  attr "href" [el] = Some (downloadPath ++ uuid) ->
  Attachment.fileUuid (attachmentOfLink el) = Some uuid.
Proof.
  intros H.
  change (Attachment.fileUuid (attachmentOfLink el))
    with (option_map (fun href => replace href downloadPath [])
            (attr "href" [el])).
  rewrite H. exact (f_equal Some (replace_at_head downloadPath uuid [])).
Qed.

Lemma link_of_uuid (uuid : jsstring) :
  buildAttachmentLink uuid = absoluteUrl (downloadPath ++ uuid).
Proof. reflexivity. Qed.

(** C10. In a notice [getNotice] returns, the attachments are those of
    the file links of the attachments page, in order; and for a link
    whose [href] is the download path followed by a uuid, the
    [fileUuid] is that uuid and [buildAttachmentLink] of it is the
    absolute URL the link denotes. *)
Theorem attachment_link_roundtrip
    (processing details attachments : reply) (noticeId : number)
    (n : Notice.t) (page : response) :
  getNotice processing details attachments noticeId = Ok n ->
  loaded attachments = Ok page ->
  exists atts,
    Notice.attachments n = Some atts
    /\ Forall2
         (fun el att =>
            forall uuid href,
              href = downloadPath ++ uuid ->
              attr "href" [el] = Some href ->
              Attachment.fileUuid att = Some uuid
              /\ buildAttachmentLink uuid = absoluteUrl href)
         (fileLinks (document page)) atts.
Proof.
  intros H Hpage. unfold getNotice in H. unbind H.
  rewrite Hpage in Hx2. injection Hx2 as <-.
  unfold noticeOf in H. unbind H. injection H as <-.
  simpl Notice.attachments. eexists. split; [reflexivity|].
  unfold fileLinks.
  induction (select _ (document page)) as [|el l IH]; simpl; constructor; auto.
  intros uuid href -> Hel. split.
  - now apply attachment_uuid.
  - apply link_of_uuid.
Qed.

End Attachments.


(** The round trip on the example pages. *)
Lemma attachment_link_roundtrip_witness :
  exists n,
    NoticeTs.getNotice (P := examplePlatform) (Reply processingPage)
      (Reply detailsPage) (Reply attachmentsPage) (Num 77) = Ok n
    /\ exists atts,
         Notice.attachments n = Some atts
         /\ Forall2
              (fun el att =>
                 forall uuid href,
                   href = NoticeTs.downloadPath ++ uuid ->
                   attr "href" [el] = Some href ->
                   Attachment.fileUuid att = Some uuid
                   /\ Utilities000.buildAttachmentLink uuid = absoluteUrl href)
              (fileLinks (document attachmentsPage)) atts.
Proof.
  eexists. split.
  - vm_compute. reflexivity.
  - apply (@attachment_link_roundtrip examplePlatform (Reply processingPage)
             (Reply detailsPage) (Reply attachmentsPage) (Num 77) _
             attachmentsPage).
    + vm_compute. reflexivity.
    + reflexivity.
Defined.

(** The example through [getNotice]: the uuid of the file, and the
    link built from it. *)
Example attachment_of_example :
  exists n,
    NoticeTs.getNotice (P := examplePlatform) (Reply processingPage)
      (Reply detailsPage) (Reply attachmentsPage) (Num 77) = Ok n
    /\ Notice.attachments n =
         Some [{| Attachment.fileName := lit "tarjouspyynto.pdf";
                  Attachment.fileUuid := Some (lit "0f8fad5b-d9cb-469f") |}]
    /\ Notice.links n = Some [lit "https://example.org/"]
    /\ Notice.flags n = [lit "eu"]
    /\ Notice.originalDeadline n = Some (lit "1.3.2024 12:00:00")
    /\ Utilities000.buildAttachmentLink (lit "0f8fad5b-d9cb-469f") =
         lit "https://tarjouspalvelu.fi/Document/Open/?fileType=TarjPyynTied&id=0f8fad5b-d9cb-469f".
Proof. eexists. split; [vm_compute; reflexivity|]. repeat split. Qed.

(* ===================================================================== *)
(** ** Notice titles *)
(* ===================================================================== *)

Section NoticeTitles.
Import CompanyTs.
Context {P : Platform}.

Lemma noticeOfRow_title (locale : Language) (row : selection) (n : Notice.t) :
  noticeOfRow locale row = Ok n ->
  Notice.title n = titleOfRow row
  /\ Notice.customId n = cellText 0 row
  /\ Notice.unit n = cellText 1 row.
Proof.
  unfold noticeOfRow. intros H. unbind H. injection H as <-.
  repeat split.
Qed.

(** C1, as the code has it.  The prefix [getNotices] strips from a
    title is the text of cell 0 of the row, which is stored as
    [customId] (the unit is cell 1): whenever the displayed title
    begins with that text followed by [" / "], the stored title is the
    displayed title without this prefix. *)
Theorem notice_title_strips_first_cell
    (locale : Language) (row : selection) (n : Notice.t) (rest : jsstring) :
  noticeOfRow locale row = Ok n ->
  displayedTitle row = cellText 0 row ++ lit " / " ++ rest ->
  Notice.customId n = cellText 0 row /\ Notice.title n = rest.
Proof.
  intros H Ht. apply noticeOfRow_title in H as (Htitle & Hid & _).
  split; [exact Hid|]. rewrite Htitle. unfold titleOfRow.
  fold (displayedTitle row). fold (cellText 0 row).
  rewrite Ht, app_assoc. apply replace_at_head.
Qed.

End NoticeTitles.

(** A row whose title begins with the text of its first cell. *)
Lemma notice_title_strips_first_cell_witness :
  exists n,
    CompanyTs.noticeOfRow (P := examplePlatform) Fi idTitledRow = Ok n
    /\ Notice.customId n = lit "UnitX"
    /\ Notice.title n = lit "Actual Title".
Proof.
  eexists. split; [vm_compute; reflexivity|].
  assert (Hid : cellText 0 idTitledRow = lit "UnitX") by reflexivity.
  rewrite <- Hid at 1.
  apply (@notice_title_strips_first_cell examplePlatform Fi idTitledRow).
  - vm_compute. reflexivity.
  - reflexivity.
Defined.

(** C1, as the design document has it, fails on a row whose title
    begins with the unit of cell 1 while cell 0 holds another text:
    the title is stored as displayed. *)
Lemma notice_title_keeps_unit_prefix :
  exists n,
    CompanyTs.noticeOfRow (P := examplePlatform) Fi unitTitledRow = Ok n
    /\ Notice.unit n = lit "UnitX"
    /\ displayedTitle unitTitledRow =
         Notice.unit n ++ lit " / " ++ lit "Actual Title"
    /\ Notice.title n = lit "UnitX / Actual Title"
    /\ Notice.title n <> lit "Actual Title".
Proof.
  eexists. split; [vm_compute; reflexivity|].
  repeat split. discriminate.
Qed.

(* ===================================================================== *)
(** ** Dynamic purchasing systems under correction *)
(* ===================================================================== *)

Section DpsCorrection.
Import CompanyTs.
Context {P : Platform}.



End DpsCorrection.


(** A row that is not being corrected has no [additionalDesc]. *)
Example dps_plain_row :
  exists d,
    CompanyTs.dpsOfRow (P := examplePlatform) Fi plainDpsRow = Ok d
    /\ Dps.isBeingCorrected d = false
    /\ Dps.additionalDesc d = None
    /\ Dps.shortDescription d = lit "Puitejarjestely kalusteista".
Proof. eexists. split; [vm_compute; reflexivity|]. repeat split. Qed.

(* ===================================================================== *)
(** ** Deadlines *)
(* ===================================================================== *)

Section Deadlines.
Import CompanyTs NoticeTs.
Context {P : Platform}.

Lemma mapM_all {A B} (f : A -> result B) (Q : B -> Prop) (l : list A)
    (ys : list B) :
  (forall x y, f x = Ok y -> Q y) -> mapM f l = Ok ys -> Forall Q ys.
Proof.
  intros Hf H. apply mapM_ok in H.
  induction H; constructor; eauto.
Qed.

Lemma dpsOfRow_deadline (locale : Language) (row : selection) (d : Dps.t) :
  dpsOfRow locale row = Ok d ->
  deadlinePair locale (Dps.deadline d) (Dps.originalDeadline d).
Proof.
  unfold dpsOfRow. intros H. unbind H. injection H as <-.
  right. simpl. eauto.
Qed.

Lemma noticeOfRow_deadline (locale : Language) (row : selection)
    (n : Notice.t) :
  noticeOfRow locale row = Ok n ->
  deadlinePair locale (Notice.deadline n) (Notice.originalDeadline n).
Proof.
  unfold noticeOfRow. intros H. unbind H. injection H as <-. simpl.
  destruct (negb (Nat.eqb (List.length (trim (text (at_ 4 row)))) 0)).
  - unbind Hx1. injection Hx1 as <-. right. eauto.
  - injection Hx1 as <-. left. auto.
Qed.

Lemma noticeOf_deadline (noticeId : number) (locale : Language)
    (d a pn : list node) (n : Notice.t) :
  noticeOf noticeId locale d a pn = Ok n ->
  deadlinePair locale (Notice.deadline n) (Notice.originalDeadline n).
Proof.
  unfold noticeOf. intros H. unbind H. injection H as <-. simpl.
  destruct (negb (Nat.eqb (List.length (text (select [C (HasId "valDueDate")] d))) 0)).
  - unbind Hx0. injection Hx0 as <-. right. eauto.
  - injection Hx0 as <-. left. auto.
Qed.

(** C2. In every record [getNotices] produces, of a dynamic purchasing
    system or of a notice, and in the record [getNotice] produces,
    [deadline] and [originalDeadline] are both [null] or both present,
    the one being the date parsed from the other; no record has one of
    the two without the other. *)
Theorem deadline_pair_never_split :
  (forall (get : reply) (ns : Notices.t),
      getNotices get = Ok ns ->
      Forall (fun d => deadlinePair (Notices.language ns) (Dps.deadline d)
                         (Dps.originalDeadline d))
             (Notices.dynamicPurchasingSystems ns)
      /\ Forall (fun n => deadlinePair (Notices.language ns) (Notice.deadline n)
                            (Notice.originalDeadline n))
                (Notices.notices ns))
  /\ (forall (processing details attachments : reply) (noticeId : number)
             (n : Notice.t),
         getNotice processing details attachments noticeId = Ok n ->
         exists locale,
           deadlinePair locale (Notice.deadline n) (Notice.originalDeadline n)).
Proof.
  split.
  - intros get ns H. unfold getNotices in H. unbind H. injection H as <-.
    simpl. split.
    + eapply mapM_all; [|eassumption]. intros; now apply dpsOfRow_deadline with x3.
    + eapply mapM_all; [|eassumption]. intros; now apply noticeOfRow_deadline with x3.
  - intros processing details attachments noticeId n H.
    unfold getNotice in H. unbind H. eexists. eapply noticeOf_deadline; eauto.
Qed.

End Deadlines.

(** The pairs of the records of the example page. *)
Lemma deadline_pair_never_split_witness :
  exists ns,
    CompanyTs.getNotices (P := examplePlatform) (Reply noticesPage) = Ok ns
    /\ Forall (fun d => deadlinePair (Notices.language ns) (Dps.deadline d)
                          (Dps.originalDeadline d))
              (Notices.dynamicPurchasingSystems ns)
    /\ Forall (fun n => deadlinePair (Notices.language ns) (Notice.deadline n)
                          (Notice.originalDeadline n))
              (Notices.notices ns).
Proof.
  eexists. split; [vm_compute; reflexivity|].
  apply (proj1 (@deadline_pair_never_split examplePlatform) (Reply noticesPage)).
  vm_compute. reflexivity.
Defined.

(** The example page: a system and a notice with a deadline, and a
    notice without one. *)
Example deadlines_of_example :
  exists ns,
    CompanyTs.getNotices (P := examplePlatform) (Reply noticesPage) = Ok ns
    /\ map (fun d => (Dps.deadline d, Dps.originalDeadline d))
           (Notices.dynamicPurchasingSystems ns)
       = [(Some (lit "31.12.2025 16:00:00"), Some (lit "31.12.2025 16:00:00"))]
    /\ map (fun n => (Notice.deadline n, Notice.originalDeadline n))
           (Notices.notices ns)
       = [(Some (lit "1.3.2024 12:00:00"), Some (lit "1.3.2024 12:00:00"));
          (None, None)].
Proof. eexists. split; [vm_compute; reflexivity|]. split; reflexivity. Qed.

(* ===================================================================== *)
(** ** The company listing *)
(* ===================================================================== *)

Section CompanyListing.
Import CompanyTs.
Context {P : Platform}.





End CompanyListing.



(* ===================================================================== *)
(** ** Logging in *)
(* ===================================================================== *)

Section Login.
Context {P : Platform}.

(** X8. A response that is no redirect leaves the session as it was,
    in both revisions and whatever the session holds. *)
Lemma login_without_redirect_keeps_session
    (get : reply) (r : response) (s : Session) :
  isRedirect r = false ->
  fst (Utilities001.loginToSession get (Reply r) s) = s
  /\ forall headId,
       fst (Utilities000.login headId get (Reply r) s) = s.
Proof.
  intros Hr.
  assert (H302 : is302 r = false).
  { unfold isRedirect in Hr. unfold is302.
    apply andb_false_iff in Hr. destruct (Z.eqb_spec (status r) 302); auto.
    destruct Hr as [Hr|Hr]; [apply Z.leb_gt in Hr|apply Z.ltb_ge in Hr]; lia. }
  split; [|intros headId].
  - unfold Utilities001.loginToSession, bindSt, axios.
    destruct get as [g|]; [destruct (_ && _)%bool|]; simpl; auto;
      destruct (_ && _)%bool; simpl; rewrite ?H302; simpl;
      destruct (noToken s); reflexivity.
  - unfold Utilities000.login, bindSt, lift.
    destruct (Utilities000.companySlugToId headId); simpl; auto.
    unfold axios.
    destruct get as [g|]; [destruct (_ && _)%bool|]; simpl; auto;
      try (destruct (is302 g); reflexivity);
      destruct (_ && _)%bool; simpl; rewrite ?H302; simpl; auto;
      destruct (noToken s); reflexivity.
Qed.

(** With a session that has no token yet, a response to the login
    POST that is no redirect makes the later revision fail with
    [LoginFailed]. *)
Lemma login_refused_without_token
    (get : reply) (form r : response) (s : Session) :
  axios get = Fulfilled form -> isRedirect r = false -> noToken s = true ->
  Utilities001.loginToSession get (Reply r) s = (s, Throw LoginFailed).
Proof.
  intros Hget Hr Hs.
  assert (H302 : is302 r = false).
  { unfold isRedirect in Hr. unfold is302.
    apply andb_false_iff in Hr. destruct (Z.eqb_spec (status r) 302); auto.
    destruct Hr as [Hr|Hr]; [apply Z.leb_gt in Hr|apply Z.ltb_ge in Hr]; lia. }
  unfold Utilities001.loginToSession, bindSt. rewrite Hget. simpl.
  destruct (_ && _)%bool; simpl; rewrite ?H302; simpl; rewrite Hs; reflexivity.
Qed.

(** The earlier revision, once the slug is resolved and the form
    loaded, fails in the same way; for a response of class 4xx or 5xx
    it does so whatever the session holds. *)
Lemma login_refused_without_token_000
    (headId get : reply) (n : number) (form r : response) (s : Session) :
  Utilities000.companySlugToId headId = Ok n ->
  axios get = Fulfilled form -> isRedirect r = false -> noToken s = true ->
  Utilities000.login headId get (Reply r) s = (s, Throw LoginFailed).
Proof.
  intros Hid Hget Hr Hs.
  assert (H302 : is302 r = false).
  { unfold isRedirect in Hr. unfold is302.
    apply andb_false_iff in Hr. destruct (Z.eqb_spec (status r) 302); auto.
    destruct Hr as [Hr|Hr]; [apply Z.leb_gt in Hr|apply Z.ltb_ge in Hr]; lia. }
  unfold Utilities000.login, bindSt, lift. rewrite Hid, Hget. simpl.
  destruct (_ && _)%bool; simpl; rewrite ?H302; simpl; rewrite ?Hs; reflexivity.
Qed.

(** What goes wrong: a fulfilled POST with a session that carries a
    token returns that session, in the later revision. *)
Lemma login_fulfilled_with_token
    (get post : reply) (form r : response) (s : Session) :
  axios get = Fulfilled form -> axios post = Fulfilled r -> noToken s = false ->
  Utilities001.loginToSession get post s = (s, Ok tt).
Proof.
  intros Hget Hpost Hs.
  unfold Utilities001.loginToSession, bindSt. rewrite Hget, Hpost. simpl.
  now rewrite Hs.
Qed.

End Login.

(** C3 at a session that already carries a token.  The login POST is
    answered with status 200, which is no redirect; both revisions
    return the session, with the old token, instead of failing with
    [LoginFailed]. *)
Theorem login_not_refused_with_stale_token :
  isRedirect shownAgain = false
  /\ Utilities001.loginToSession (Reply formPage) (Reply shownAgain) staleSession
     = (staleSession, Ok tt)
  /\ Utilities000.loginToSession (P := examplePlatform) NoReply (Reply toCompany)
       (Reply formPage) (Reply shownAgain) (Some staleSession)
     = (Some staleSession, Ok tt).
Proof. repeat split. Qed.

(** The same requests with a session without a token fail as the
    design document says. *)
Example login_refused_fresh_session :
  Utilities001.loginToSession (Reply formPage) (Reply shownAgain) freshSession
  = (freshSession, Throw LoginFailed)
  /\ Utilities000.loginToSession (P := examplePlatform) NoReply (Reply toCompany)
       (Reply formPage) (Reply shownAgain) (Some freshSession)
     = (Some freshSession, Throw LoginFailed).
Proof. repeat split. Qed.

(** A redirect with the token cookie fills the session. *)
Example login_accepted :
  Utilities001.loginToSession (Reply formPage)
    (Reply (redirected ["TarjPalv=4f2e; path=/"%string])) freshSession
  = ({| uuid := lit "0a1b"; id := lit "sess"; token := Some (lit "4f2e") |},
     Ok tt).
Proof. reflexivity. Qed.

(* ===================================================================== *)
(** ** Setting the language *)
(* ===================================================================== *)

Section SetLanguage.

(** A redirect (status 302) whose cookies confirm another culture than
    the requested one fails with [LanguageMismatch], in both
    revisions. *)
Lemma language_mismatch_detected
    (get : reply) (form r : response) (language : Language)
    (session : Session) (confirmed : jsstring) :
  axios get = Fulfilled form ->
  status r = 302%Z ->
  confirmedLanguage r = Ok confirmed ->
  confirmed <> lit (code language) ->
  Utilities000.setSessionLanguage get (Reply r) language session
  = Throw LanguageMismatch
  /\ Utilities001.setSessionLanguage get (Reply r) language session
     = Throw LanguageMismatch.
Proof.
  intros Hget Hs Hc Hne.
  assert (Heq : eqb (lit (code language)) confirmed = false).
  { destruct (eqb (lit (code language)) confirmed) eqn:E; auto.
    apply eqb_eq in E. congruence. }
  unfold Utilities000.setSessionLanguage, Utilities001.setSessionLanguage.
  rewrite Hget. unfold axios, is302. rewrite Hs. simpl.
  rewrite Hs. simpl. rewrite Hc. simpl. rewrite Heq. split; reflexivity.
Qed.

(** A redirect that confirms the requested culture returns the
    session. *)
Lemma language_confirmed
    (get : reply) (form r : response) (language : Language)
    (session : Session) :
  axios get = Fulfilled form ->
  status r = 302%Z ->
  confirmedLanguage r = Ok (lit (code language)) ->
  Utilities000.setSessionLanguage get (Reply r) language session = Ok session
  /\ Utilities001.setSessionLanguage get (Reply r) language session = Ok session.
Proof.
  intros Hget Hs Hc.
  unfold Utilities000.setSessionLanguage, Utilities001.setSessionLanguage.
  rewrite Hget. unfold axios, is302. rewrite Hs. simpl.
  rewrite Hs. simpl. rewrite Hc. simpl. rewrite eqb_refl. split; reflexivity.
Qed.

End SetLanguage.

(** C4 at a POST answered with status 200, which is no redirect: both
    revisions return the session as on success, whatever language was
    asked for; the later revision does so for every status other than
    302, here 500. *)
Theorem language_set_without_redirect (language : Language) (session : Session) :
  isRedirect shownAgain = false
  /\ Utilities000.setSessionLanguage (Reply formPage) (Reply shownAgain)
       language session = Ok session
  /\ Utilities001.setSessionLanguage (Reply formPage) (Reply shownAgain)
       language session = Ok session
  /\ Utilities001.setSessionLanguage (Reply formPage) (Reply (page 500 [] []))
       language session = Ok session.
Proof. repeat split. Qed.

(** Asked for Swedish and answered with a redirect that confirms
    Finnish, both revisions fail; confirmed Swedish, they succeed. *)
Example language_mismatch_example :
  Utilities001.setSessionLanguage (Reply formPage)
    (Reply (redirected ["tarjouspalvelu.fi=culture=fi-FI&Expires=1; path=/"%string]))
    Sv freshSession = Throw LanguageMismatch
  /\ Utilities000.setSessionLanguage (Reply formPage)
       (Reply (redirected ["tarjouspalvelu.fi=culture=fi-FI&Expires=1; path=/"%string]))
       Sv freshSession = Throw LanguageMismatch
  /\ Utilities001.setSessionLanguage (Reply formPage)
       (Reply (redirected ["tarjouspalvelu.fi=culture=sv-SE&Expires=1; path=/"%string]))
       Sv freshSession = Ok freshSession.
Proof. repeat split. Qed.

(* ===================================================================== *)
(** ** Flags *)
(* ===================================================================== *)

Section Flags.
Context {P : Platform}.

(** The decoder of [getNotices] tries the first pattern, then the
    second, and throws when neither matches. *)
Lemma flagOfIcon_two_patterns (el : node) :
  CompanyTs.flagOfIcon el =
  match attr "src" [el] with
  | None => Throw FlagParseError
  | Some src =>
      match regexMatch (lits "ikoni_") (Dot :: lits "gif") src with
      | Some f => Ok f
      | None =>
          match regexMatch (lits "images/") (lits "_ikoni") src with
          | Some f => Ok f
          | None => Throw FlagParseError
          end
      end
  end.
Proof.
  unfold CompanyTs.flagOfIcon. destruct (attr "src" [el]) as [src|]; auto.
  destruct (regexMatch (lits "ikoni_") _ src); auto.
Qed.

(** X29. A notice row is produced with one flag for each of its
    icons, in order: no icon is passed over. *)
Lemma flags_never_dropped (locale : Language) (row : selection) (n : Notice.t) :
  CompanyTs.noticeOfRow locale row = Ok n ->
  Forall2 (fun el f => CompanyTs.flagOfIcon el = Ok f)
          (find [T "img"] (at_ 2 row)) (Notice.flags n).
Proof.
  unfold CompanyTs.noticeOfRow. intros H. unbind H. injection H as <-.
  simpl. now apply mapM_ok.
Qed.

(** X30. An icon that neither pattern decodes leaves the row without
    a record: the extraction of the row throws. *)
Lemma undecodable_icon_fails (locale : Language) (row : selection)
    (el : node) (e : error) :
  In el (find [T "img"] (at_ 2 row)) ->
  CompanyTs.flagOfIcon el = Throw e ->
  exists e', CompanyTs.noticeOfRow locale row = Throw e'.
Proof.
  intros Hin Hel. unfold CompanyTs.noticeOfRow.
  destruct (CompanyTs.idOfRow row); simpl; [|eauto].
  destruct (@mapM_fails _ _ CompanyTs.flagOfIcon _ el e Hin Hel) as (e' & ->). simpl. eauto.
Qed.

End Flags.

(** C5 at the icon of a small procurement, which only the second
    pattern matches: the decoder of [getNotices] reads the flag, the
    decoder of [getNotice] tries no second pattern and the whole call
    fails with [FlagParseError]. *)
Theorem notice_flag_decoder_has_no_fallback :
  CompanyTs.flagOfIcon smallProcurementIcon = Ok (lit "pienhankinta")
  /\ NoticeTs.flagOfIcon smallProcurementIcon = Throw FlagParseError
  /\ NoticeTs.getNotice (P := examplePlatform) (Reply smallProcurementPage)
       (Reply detailsPage) (Reply attachmentsPage) (Num 77)
     = Throw FlagParseError.
Proof. repeat split. Qed.

(* ===================================================================== *)
(** ** Resolving a slug *)
(* ===================================================================== *)

Section Slugs.
Context {P : Platform}.

(** In the revision that checks [id], a request that is not
    redirected fails, and so does a redirect whose [p] is no number or
    zero. *)
Lemma slug_unresolved_fails (head : reply) :
  (forall r, axios head = Fulfilled r ->
             Utilities000.companySlugToId head = Throw SessionAcquisitionFailed)
  /\ (forall err n, axios head = Rejected err -> slugHandler err = Ok n ->
                    truthyNumber n = false ->
                    Utilities000.companySlugToId head
                    = Throw SessionAcquisitionFailed)
  /\ (forall err n, axios head = Rejected err -> slugHandler err = Ok n ->
                    truthyNumber n = true ->
                    Utilities000.companySlugToId head = Ok n).
Proof.
  unfold Utilities000.companySlugToId. repeat split.
  - intros r ->. reflexivity.
  - intros err n -> Hn Ht. rewrite Hn. simpl. now rewrite Ht.
  - intros err n -> Hn Ht. rewrite Hn. simpl. now rewrite Ht.
Qed.

(** X10. Both revisions throw [InvalidSlug] exactly when the request
    is rejected with a response whose [Location] is the index page. *)
Lemma invalid_slug_iff (head : reply) :
  (Utilities000.companySlugToId head = Throw InvalidSlug
   <-> exists r, axios head = Rejected (Some r) /\ location r = Some indexPage)
  /\ (Utilities001.companySlugToId head = Throw InvalidSlug
      <-> exists r, axios head = Rejected (Some r) /\ location r = Some indexPage).
Proof.
  assert (Hh : forall err,
             slugHandler err = Throw InvalidSlug
             <-> exists r, err = Some r /\ location r = Some indexPage).
  { intros [r|]; unfold slugHandler, strictEq; cbn [deref bind].
    - destruct (location r) as [l|] eqn:Hl.
      + destruct (eqb l indexPage) eqn:E.
        * apply eqb_eq in E. subst. split; eauto.
        * assert (l <> indexPage) by (intros ->; rewrite eqb_refl in E; easy).
          split.
          -- unfold Querystring.param. cbn [deref bind].
             destruct (Querystring.get "p" _); cbn [deref bind]; discriminate.
          -- intros (r' & [= <-] & Hr). congruence.
      + split; [discriminate|]. intros (r' & [= <-] & Hr). congruence.
    - split; [discriminate|]. intros (r & Hr & _). discriminate. }
  unfold Utilities000.companySlugToId, Utilities001.companySlugToId.
  destruct (axios head) as [r|err]; simpl.
  - split; (split; [discriminate|]); intros (r' & Hr & _); discriminate.
  - specialize (Hh err). destruct (slugHandler err) as [n|e]; simpl.
    + split; (split; [try destruct (truthyNumber n); discriminate|]);
        intros (r' & [= ->] & Hr);
        assert (X : Ok n = Throw InvalidSlug) by (apply Hh; eauto);
        discriminate.
    + split; (split;
                [intros [= ->]; destruct (proj1 Hh eq_refl) as (r' & -> & Hr);
                 eauto
                |intros (r' & [= ->] & Hr);
                 assert (X : @Throw number e = Throw InvalidSlug)
                   by (apply Hh; eauto);
                 injection X as ->; reflexivity]).
Qed.

End Slugs.

(** C6 at a HEAD request answered with status 200, and at a redirect
    whose [p] is empty: the later revision returns without a company
    id ([undefined], and [NaN]), where the earlier one fails. *)
Theorem companySlugToId_returns_without_id :
  Utilities001.companySlugToId (P := examplePlatform) (Reply noRedirect) = Ok None
  /\ Utilities001.companySlugToId (P := examplePlatform) (Reply toNowhere)
     = Ok (Some NaN)
  /\ Utilities000.companySlugToId (P := examplePlatform) (Reply noRedirect)
     = Throw SessionAcquisitionFailed
  /\ Utilities000.companySlugToId (P := examplePlatform) (Reply toNowhere)
     = Throw SessionAcquisitionFailed.
Proof. repeat split. Qed.

(** The redirect to the page of a company gives its id, the one to the
    index page [InvalidSlug], in both revisions. *)
Example slug_resolved :
  Utilities000.companySlugToId (P := examplePlatform) (Reply toCompany)
  = Ok (Num 13)
  /\ Utilities001.companySlugToId (P := examplePlatform) (Reply toCompany)
     = Ok (Some (Num 13))
  /\ Utilities000.companySlugToId (P := examplePlatform) (Reply toIndex)
     = Throw InvalidSlug
  /\ Utilities001.companySlugToId (P := examplePlatform) (Reply toIndex)
     = Throw InvalidSlug.
Proof. repeat split. Qed.

(* ===================================================================== *)
(** ** Facts about the regular expressions *)
(* ===================================================================== *)

Section RegexFacts.

Lemma startsWith_true (p s : jsstring) :
  startsWith p s = true -> s = p ++ skipn (List.length p) s.
Proof.
  revert s; induction p as [|x p IH]; intros [|y s]; simpl; try easy.
  rewrite andb_true_iff, N.eqb_eq. intros [-> H]. f_equal. auto.
Qed.

(** A literal pattern matches where the text starts with it. *)
Lemma matchAtoms_literal (p s : jsstring) :
  matchAtoms (map Lit p) s =
  if startsWith p s then Some (skipn (List.length p) s) else None.
Proof.
  revert s; induction p as [|x p IH]; intros [|y s]; simpl; auto.
  destruct (N.eqb x y); simpl; auto.
Qed.

Lemma indexOf_later (pat s : jsstring) (c : char) (n : nat) :
  indexOf pat (c :: s) = Some (S n) ->
  startsWith pat (c :: s) = false /\ indexOf pat s = Some n.
Proof.
  rewrite indexOf_unfold. destruct (startsWith pat (c :: s)); [discriminate|].
  destruct (indexOf pat s); simpl; [|discriminate].
  intros [= ->]. auto.
Qed.

Lemma indexOf_here (pat s : jsstring) :
  indexOf pat s = Some 0 -> startsWith pat s = true.
Proof.
  rewrite indexOf_unfold. destruct (startsWith pat s); auto.
  destruct s; [discriminate|]. destruct (indexOf pat s); discriminate.
Qed.

Lemma regexMatch_unfold (prefix suffix : list atom) (s : jsstring) :
  regexMatch prefix suffix s =
  match
    match matchAtoms prefix s with
    | Some rest => lazyCapture suffix rest
    | None => None
    end
  with
  | Some cap => Some cap
  | None => match s with
            | [] => None
            | _ :: s' => regexMatch prefix suffix s'
            end
  end.
Proof. destruct s; reflexivity. Qed.

Lemma lazyCapture_unfold (suffix : list atom) (s : jsstring) :
  lazyCapture suffix s =
  match matchAtoms suffix s with
  | Some _ => Some []
  | None =>
      match s with
      | [] => None
      | c :: s' =>
          if isLineTerminator c then None
          else option_map (cons c) (lazyCapture suffix s')
      end
  end.
Proof. destruct s; reflexivity. Qed.

(** The lazy group takes the text up to the first occurrence of a
    literal suffix, when no line ends before it. *)
Lemma lazyCapture_upto (sfx cap post : jsstring) :
  indexOf sfx (cap ++ sfx ++ post) = Some (List.length cap) ->
  oneLine cap = true ->
  lazyCapture (map Lit sfx) (cap ++ sfx ++ post) = Some cap.
Proof.
  induction cap as [|c cap IH]; intros Hi Hl.
  - rewrite lazyCapture_unfold, matchAtoms_literal.
    now rewrite (indexOf_here _ _ Hi).
  - simpl in Hl. apply andb_true_iff in Hl as [Hc Hl].
    apply negb_true_iff in Hc.
    change ((c :: cap) ++ sfx ++ post) with (c :: (cap ++ sfx ++ post)) in *.
    apply indexOf_later in Hi as [Hs Hi].
    rewrite lazyCapture_unfold, matchAtoms_literal, Hs, Hc, IH; auto.
Qed.

(** [s.match(/before(.*?)after/)[1]] for literal [before] and [after]:
    the text between the first [before] and the next [after], when no
    line ends in between. *)
Lemma regexMatch_between (before after pre cap post : jsstring) :
  indexOf before (pre ++ before ++ cap ++ after ++ post) = Some (List.length pre) ->
  indexOf after (cap ++ after ++ post) = Some (List.length cap) ->
  oneLine cap = true ->
  regexMatch (map Lit before) (map Lit after)
    (pre ++ before ++ cap ++ after ++ post) = Some cap.
Proof.
  intros Hb Ha Hl. induction pre as [|c pre IH].
  - simpl. rewrite regexMatch_unfold, matchAtoms_literal, startsWith_app.
    rewrite skipn_past, lazyCapture_upto; auto.
  - change ((c :: pre) ++ before ++ cap ++ after ++ post)
      with (c :: (pre ++ before ++ cap ++ after ++ post)) in *.
    apply indexOf_later in Hb as [Hs Hb].
    rewrite regexMatch_unfold, matchAtoms_literal, Hs. auto.
Qed.

(** Without an occurrence of a literal [before] there is no match. *)
Lemma regexMatch_absent (before : jsstring) (suffix : list atom) (s : jsstring) :
  includes s before = false -> regexMatch (map Lit before) suffix s = None.
Proof.
  unfold includes. induction s as [|c s IH]; intros H;
    rewrite indexOf_unfold in H; rewrite regexMatch_unfold, matchAtoms_literal;
    destruct (startsWith before _); try discriminate; auto.
  apply IH. destruct (indexOf before s); [discriminate|reflexivity].
Qed.

End RegexFacts.

(* ===================================================================== *)
(** ** The locale of a page *)
(* ===================================================================== *)

Section Locale.
Context {P : Platform}.

Lemma code_inj (a b : Language) : lit (code a) = lit (code b) -> a = b.
Proof. destruct a, b; intros H; try reflexivity; discriminate. Qed.

Lemma matchLocale_of_capture (html : jsstring) (l : Language) :
  regexMatch cultureInfoPrefix cultureInfoSuffix html = Some (lit (code l)) ->
  matchLocale html = Ok l.
Proof. unfold matchLocale. intros ->. destruct l; reflexivity. Qed.

(** X1. [matchLocale] reads the culture from the first marker of the
    page: for each of the four languages, a page whose first
    [__cultureInfo] marker names the code of the language gives that
    language, whatever stands before and after. *)
Theorem matchLocale_reads_first_marker (l : Language) (pre post : jsstring) :
  indexOf cultureBefore
    (pre ++ cultureBefore ++ lit (code l) ++ cultureAfter ++ post)
  = Some (List.length pre) ->
  matchLocale (pre ++ cultureBefore ++ lit (code l) ++ cultureAfter ++ post)
  = Ok l.
Proof.
  intros H. apply matchLocale_of_capture.
  change cultureInfoPrefix with (map Lit cultureBefore).
  change cultureInfoSuffix with (map Lit cultureAfter).
  apply regexMatch_between; auto; destruct l; reflexivity.
Qed.

(** X2. [matchLocale] fails on a page without the marker, and the only
    error it ever throws is [LocaleNotFound]; a result is one of the
    four languages, read from the marker. *)
Theorem matchLocale_fails_only_with_LocaleNotFound (html : jsstring) :
  (includes html cultureBefore = false -> matchLocale html = Throw LocaleNotFound)
  /\ (forall e, matchLocale html = Throw e -> e = LocaleNotFound)
  /\ (forall l, matchLocale html = Ok l ->
                regexMatch cultureInfoPrefix cultureInfoSuffix html
                = Some (lit (code l))).
Proof.
  unfold matchLocale. repeat split.
  - intros H. change cultureInfoPrefix with (map Lit cultureBefore).
    now rewrite regexMatch_absent.
  - intros e. destruct (regexMatch _ _ html) as [c|]; [|now intros [= <-]].
    repeat (match goal with |- context [if ?b then _ else _] => destruct b end;
            try discriminate).
    now intros [= <-].
  - intros l. destruct (regexMatch _ _ html) as [c|]; [|discriminate].
    destruct (eqb c (lit "fi-FI")) eqn:E1;
      [apply eqb_eq in E1; subst; now intros [= <-]|].
    destruct (eqb c (lit "sv-SE")) eqn:E2;
      [apply eqb_eq in E2; subst; now intros [= <-]|].
    destruct (eqb c (lit "en-GB")) eqn:E3;
      [apply eqb_eq in E3; subst; now intros [= <-]|].
    destruct (eqb c (lit "da-DK")) eqn:E4;
      [apply eqb_eq in E4; subst; now intros [= <-]|].
    discriminate.
Qed.

(** X3. The language [getNotices] stores in its result is the one
    [getSessionLanguage] reads from the same page. *)
Theorem getNotices_language_is_session_language
    (get : reply) (ns : Notices.t) :
  CompanyTs.getNotices get = Ok ns ->
  UtilitiesTs.getSessionLanguage get = Ok (Notices.language ns).
Proof.
  unfold CompanyTs.getNotices, UtilitiesTs.getSessionLanguage.
  intros H. unbind H. injection H as <-. simpl.
  destruct (axios get) as [r|err]; simpl in *.
  - injection Hx as <-. exact Hx0.
  - destruct err as [r|]; simpl in *; [|discriminate].
    destruct (is302 r); discriminate.
Qed.

End Locale.

(** The Swedish company page: text before the marker and a line break
    after it. *)
Lemma matchLocale_reads_first_marker_witness :
  matchLocale (data companyPage) = Ok Sv.
Proof.
  apply (matchLocale_reads_first_marker Sv (lit "var ")
           (lit "numberFormat" ++ dquote :: 10%N :: hiddenField "14" ++ lit "</form>")).
  reflexivity.
Defined.

(** The language of the example page of notices. *)
Lemma getNotices_language_is_session_language_witness :
  UtilitiesTs.getSessionLanguage (Reply noticesPage) = Ok Fi.
Proof.
  destruct (CompanyTs.getNotices (P := examplePlatform) (Reply noticesPage))
    as [ns|e] eqn:H; [|vm_compute in H; discriminate].
  assert (Hl : Notices.language ns = Fi)
    by (vm_compute in H; injection H as <-; reflexivity).
  rewrite <- Hl.
  exact (@getNotices_language_is_session_language examplePlatform _ _ H).
Defined.

(* ===================================================================== *)
(** ** Logging in: the redirect *)
(* ===================================================================== *)

Section LoginRedirect.
Context {P : Platform}.

Lemma is302_of_status (r : response) : status r = 302%Z -> is302 r = true.
Proof. unfold is302. now intros ->. Qed.

Lemma axios_302 (r : response) :
  status r = 302%Z -> axios (Reply r) = Rejected (Some r).
Proof. unfold axios. now intros ->. Qed.

(** The token cookie as the login handler reads it. *)
Lemma token_cookie (r : response) (cookies : list jsstring)
    (pre tok post : jsstring) :
  setCookie r = Some cookies ->
  join cookies = pre ++ lit "TarjPalv=" ++ tok ++ lit ";" ++ post ->
  indexOf (lit "TarjPalv=") (join cookies) = Some (List.length pre) ->
  indexOf (lit ";") (tok ++ lit ";" ++ post) = Some (List.length tok) ->
  oneLine tok = true ->
  cookieMatch (lits "TarjPalv=") (lits ";") r = Ok tok.
Proof.
  intros Hc Hj Hi Ht Hl. unfold cookieMatch. rewrite Hc. simpl.
  rewrite Hj in *. unfold lits. now rewrite regexMatch_between.
Qed.

(** X4. A login POST answered with a redirect (302) whose cookies hold
    [TarjPalv=tok;] puts [tok], when it is not empty, into the token
    of the session, keeps [uuid] and [id], and returns the session;
    an earlier token is replaced.  This holds in both revisions, for
    the earlier one once the slug is resolved. *)
Theorem login_redirect_sets_token
    (get : reply) (form r : response) (s : Session)
    (cookies : list jsstring) (pre tok post : jsstring) :
  axios get = Fulfilled form ->
  status r = 302%Z ->
  setCookie r = Some cookies ->
  join cookies = pre ++ lit "TarjPalv=" ++ tok ++ lit ";" ++ post ->
  indexOf (lit "TarjPalv=") (join cookies) = Some (List.length pre) ->
  indexOf (lit ";") (tok ++ lit ";" ++ post) = Some (List.length tok) ->
  oneLine tok = true ->
  truthy tok = true ->
  Utilities001.loginToSession get (Reply r) s
  = ({| uuid := uuid s; id := id s; token := Some tok |}, Ok tt)
  /\ forall headId n,
       Utilities000.companySlugToId headId = Ok n ->
       Utilities000.login headId get (Reply r) s
       = ({| uuid := uuid s; id := id s; token := Some tok |}, Ok tt).
Proof.
  intros Hget Hs Hc Hj Hi Ht Hl Htok.
  pose proof (token_cookie r pre tok post Hc Hj Hi Ht Hl) as Hm.
  assert (Hno : noToken {| uuid := uuid s; id := id s; token := Some tok |}
                = false).
  { unfold noToken. simpl. now rewrite Htok. }
  split; [|intros headId n Hid].
  - unfold Utilities001.loginToSession, bindSt, lift, takeToken, bindSt, lift.
    rewrite Hget, (axios_302 r Hs). simpl. rewrite (is302_of_status r Hs), Hm.
    simpl. unfold read. now rewrite Hno.
  - unfold Utilities000.login, bindSt, lift, takeToken, bindSt, lift.
    rewrite Hid, Hget, (axios_302 r Hs). simpl.
    rewrite (is302_of_status r Hs), Hm. simpl. unfold read. now rewrite Hno.
Qed.

(** X5. A redirect that carries no token cookie (no [Set-Cookie]
    header at all, or none with [TarjPalv=]) makes the login throw a
    [TypeError], not [LoginFailed], and leaves the session as it
    was. *)
Theorem login_redirect_without_cookie
    (get : reply) (form r : response) (s : Session) :
  axios get = Fulfilled form ->
  status r = 302%Z ->
  (setCookie r = None
   \/ exists cookies, setCookie r = Some cookies
                      /\ includes (join cookies) (lit "TarjPalv=") = false) ->
  Utilities001.loginToSession get (Reply r) s = (s, Throw TypeError)
  /\ forall headId n,
       Utilities000.companySlugToId headId = Ok n ->
       Utilities000.login headId get (Reply r) s = (s, Throw TypeError).
Proof.
  intros Hget Hs Hc.
  assert (Hm : cookieMatch (lits "TarjPalv=") (lits ";") r = Throw TypeError).
  { unfold cookieMatch. destruct Hc as [->|(cookies & -> & Hn)]; simpl; auto.
    unfold lits. now rewrite regexMatch_absent. }
  split; [|intros headId n Hid].
  - unfold Utilities001.loginToSession, bindSt, lift, takeToken, bindSt, lift.
    rewrite Hget, (axios_302 r Hs). simpl. now rewrite (is302_of_status r Hs), Hm.
  - unfold Utilities000.login, bindSt, lift, takeToken, bindSt, lift.
    rewrite Hid, Hget, (axios_302 r Hs). simpl.
    now rewrite (is302_of_status r Hs), Hm.
Qed.

(** X6. A redirect whose token cookie is empty ([TarjPalv=;]) fails
    with [LoginFailed], but only after the empty token was written
    into the session: the token the session had is lost. *)
Theorem login_empty_token_overwrites
    (get : reply) (form r : response) (s : Session)
    (cookies : list jsstring) (pre post : jsstring) :
  axios get = Fulfilled form ->
  status r = 302%Z ->
  setCookie r = Some cookies ->
  join cookies = pre ++ lit "TarjPalv=" ++ lit ";" ++ post ->
  indexOf (lit "TarjPalv=") (join cookies) = Some (List.length pre) ->
  Utilities001.loginToSession get (Reply r) s
  = ({| uuid := uuid s; id := id s; token := Some [] |}, Throw LoginFailed)
  /\ forall headId n,
       Utilities000.companySlugToId headId = Ok n ->
       Utilities000.login headId get (Reply r) s
       = ({| uuid := uuid s; id := id s; token := Some [] |}, Throw LoginFailed).
Proof.
  intros Hget Hs Hc Hj Hi.
  assert (Hm : cookieMatch (lits "TarjPalv=") (lits ";") r = Ok []).
  { apply (token_cookie r pre [] post Hc); auto. }
  split; [|intros headId n Hid].
  - unfold Utilities001.loginToSession, bindSt, lift, takeToken, bindSt, lift.
    rewrite Hget, (axios_302 r Hs). simpl. now rewrite (is302_of_status r Hs), Hm.
  - unfold Utilities000.login, bindSt, lift, takeToken, bindSt, lift.
    rewrite Hid, Hget, (axios_302 r Hs). simpl.
    now rewrite (is302_of_status r Hs), Hm.
Qed.

(** X7. Whatever the requests receive, logging in never changes the
    [uuid] or the [id] of the session. *)
Theorem login_keeps_uuid_and_id (get post : reply) (s : Session) :
  (uuid (fst (Utilities001.loginToSession get post s)) = uuid s
   /\ id (fst (Utilities001.loginToSession get post s)) = id s)
  /\ forall headId,
       uuid (fst (Utilities000.login headId get post s)) = uuid s
       /\ id (fst (Utilities000.login headId get post s)) = id s.
Proof.
  assert (Ht : forall r,
             (uuid (fst (takeToken r s)) = uuid s /\ id (fst (takeToken r s)) = id s)
             /\ (forall s' u, takeToken r s = (s', Ok u) ->
                              uuid s' = uuid s /\ id s' = id s)).
  { intros r. unfold takeToken, bindSt, lift, assignToken.
    destruct (cookieMatch _ _ r); simpl; split; auto.
    - intros s' u [= <- _]. auto.
    - discriminate. }
  split; [|intros headId].
  - unfold Utilities001.loginToSession, bindSt, lift, read.
    destruct (axios get) as [g|eg]; simpl; auto.
    destruct (axios post) as [r0|[r|]]; simpl; auto.
    + destruct (noToken s); auto.
    + destruct (is302 r); simpl.
      * destruct (takeToken r s) as [s' [u|e]] eqn:E; simpl.
        -- destruct (proj2 (Ht r) s' u E). destruct (noToken s'); auto.
        -- pose proof (proj1 (Ht r)) as H. now rewrite E in H.
      * destruct (noToken s); auto.
  - unfold Utilities000.login, bindSt, lift, read.
    destruct (Utilities000.companySlugToId headId) as [n|e0]; simpl; auto.
    destruct (axios get) as [g0|[g|]]; simpl; auto;
      [|destruct (is302 g); simpl; auto].
    destruct (axios post) as [r0|[r|]]; simpl; auto.
    + destruct (noToken s); auto.
    + destruct (is302 r); simpl; auto.
      destruct (takeToken r s) as [s' [u|e]] eqn:E; simpl.
      * destruct (proj2 (Ht r) s' u E). destruct (noToken s'); auto.
      * pose proof (proj1 (Ht r)) as H. now rewrite E in H.
Qed.

End LoginRedirect.

(** The login of the example: a redirect with two cookies. *)
Lemma login_redirect_sets_token_witness :
  Utilities001.loginToSession (Reply formPage)
    (Reply (redirected ["lang=fi; path=/"%string; "TarjPalv=4f2e; path=/"%string]))
    staleSession
  = ({| uuid := lit "0a1b"; id := lit "sess"; token := Some (lit "4f2e") |}, Ok tt).
Proof.
  apply (@login_redirect_sets_token examplePlatform (Reply formPage) formPage
           (redirected ["lang=fi; path=/"%string; "TarjPalv=4f2e; path=/"%string])
           staleSession
           (map lit ["lang=fi; path=/"%string; "TarjPalv=4f2e; path=/"%string])
           (lit "lang=fi; path=/") (lit "4f2e") (lit " path=/"));
    reflexivity.
Defined.

(** A redirect without cookies. *)
Lemma login_redirect_without_cookie_witness :
  Utilities001.loginToSession (Reply formPage) (Reply toIndex) freshSession
  = (freshSession, Throw TypeError).
Proof.
  apply (@login_redirect_without_cookie examplePlatform (Reply formPage)
           formPage toIndex freshSession); [reflexivity|reflexivity|].
  left. reflexivity.
Defined.

(** A redirect with an empty token, on a session that had one. *)
Lemma login_empty_token_overwrites_witness :
  Utilities001.loginToSession (Reply formPage)
    (Reply (redirected ["TarjPalv=; path=/"%string])) staleSession
  = ({| uuid := lit "0a1b"; id := lit "sess"; token := Some [] |},
     Throw LoginFailed).
Proof.
  apply (@login_empty_token_overwrites examplePlatform (Reply formPage) formPage
           (redirected ["TarjPalv=; path=/"%string]) staleSession
           (map lit ["TarjPalv=; path=/"%string]) [] (lit " path=/"));
    reflexivity.
Defined.

(** A login POST answered with status 403 leaves the stale session as
    it was. *)
Lemma login_without_redirect_keeps_session_witness :
  fst (Utilities001.loginToSession (Reply formPage) (Reply (page 403 [] []))
         staleSession) = staleSession.
Proof.
  apply (@login_without_redirect_keeps_session examplePlatform (Reply formPage)
           (page 403 [] []) staleSession).
  reflexivity.
Defined.

(* ===================================================================== *)
(** ** Setting the language: the redirect *)
(* ===================================================================== *)

Section LanguageRedirect.

(** X9. A language POST answered with a redirect (302) whose cookies
    confirm a culture with [culture=...&Expires] returns the session
    when the confirmed language is the requested one and fails with
    [LanguageMismatch] when it is another of the four, in both
    revisions. *)
Theorem language_set_iff_confirmed
    (get : reply) (form r : response) (session : Session)
    (cookies : list jsstring) (pre post : jsstring)
    (requested confirmed : Language) :
  axios get = Fulfilled form ->
  status r = 302%Z ->
  setCookie r = Some cookies ->
  join cookies
  = pre ++ lit "culture=" ++ lit (code confirmed) ++ lit "&Expires" ++ post ->
  indexOf (lit "culture=") (join cookies) = Some (List.length pre) ->
  (requested = confirmed ->
   Utilities000.setSessionLanguage get (Reply r) requested session = Ok session
   /\ Utilities001.setSessionLanguage get (Reply r) requested session = Ok session)
  /\ (requested <> confirmed ->
      Utilities000.setSessionLanguage get (Reply r) requested session
      = Throw LanguageMismatch
      /\ Utilities001.setSessionLanguage get (Reply r) requested session
         = Throw LanguageMismatch).
Proof.
  intros Hget Hs Hc Hj Hi.
  assert (Hm : confirmedLanguage r = Ok (lit (code confirmed))).
  { unfold confirmedLanguage, cookieMatch. rewrite Hc. simpl.
    rewrite Hj in *. unfold lits. rewrite regexMatch_between; auto;
      destruct confirmed; reflexivity. }
  split.
  - intros ->. now apply language_confirmed with form.
  - intros Hne. apply language_mismatch_detected with form (lit (code confirmed));
      auto.
    intros E. apply Hne. symmetry. now apply code_inj.
Qed.

End LanguageRedirect.

(** Swedish requested and confirmed. *)
Lemma language_set_iff_confirmed_witness :
  Utilities001.setSessionLanguage (Reply formPage)
    (Reply (redirected ["tarjouspalvelu.fi=culture=sv-SE&Expires=1; path=/"%string]))
    Sv freshSession = Ok freshSession.
Proof.
  apply (proj1 (@language_set_iff_confirmed (Reply formPage) formPage
           (redirected ["tarjouspalvelu.fi=culture=sv-SE&Expires=1; path=/"%string])
           freshSession
           (map lit ["tarjouspalvelu.fi=culture=sv-SE&Expires=1; path=/"%string])
           (lit "tarjouspalvelu.fi=") (lit "=1; path=/") Sv Sv
           eq_refl eq_refl eq_refl eq_refl eq_refl) eq_refl).
Defined.

(* ===================================================================== *)
(** ** Sessions and slugs *)
(* ===================================================================== *)

Section Sessions.
Context {P : Platform}.

(** X11. A session [getSession] of the earlier revision returns has a
    [uuid] and an [id] that are not empty and has no token; it comes
    from a rejected request whose [Location] is not the index page. *)
Theorem getSession_returns_anonymous_session (head : reply) (s : Session) :
  Utilities000.getSession head = Ok s ->
  truthy (uuid s) = true /\ truthy (id s) = true /\ token s = None
  /\ exists r, axios head = Rejected (Some r)
               /\ strictEq (location r) indexPage = false
               /\ cookieMatch (lits "TP=") (lits ";") r = Ok (id s).
Proof.
  unfold Utilities000.getSession. intros H. unbind H.
  destruct x as [[g i]|]; [|discriminate].
  destruct (truthy g) eqn:Hg; [|discriminate].
  destruct (truthy i) eqn:Hi; [|discriminate].
  injection H as <-. simpl. repeat split; auto.
  destruct (axios head) as [r|[r|]]; try discriminate.
  exists r. simpl in Hx.
  destruct (strictEq (location r) indexPage); [discriminate|].
  unbind Hx. injection Hx as <- <-. auto.
Qed.


(** X13. [getSession] of the later revision returns [uuid] and [id]
    together or not at all: a request that is not rejected gives a
    session with both undefined instead of an error, and a rejected
    one gives both, possibly empty. *)
Theorem getSession001_fields_together
    (head : reply) (u i : option jsstring) :
  UtilitiesTs.getSession001 head = Ok (u, i) ->
  (u = None /\ i = None /\ exists r, axios head = Fulfilled r)
  \/ (exists g c r, u = Some g /\ i = Some c
                    /\ axios head = Rejected (Some r)
                    /\ cookieMatch (lits "SessionId_TP=") (lits ";") r = Ok c).
Proof.
  unfold UtilitiesTs.getSession001.
  destruct (axios head) as [r|[r|]]; simpl; try discriminate.
  - intros [= <- <-]. left. eauto.
  - destruct (strictEq (location r) indexPage); [discriminate|].
    intros H. unbind H. injection H as <- <-. right. eauto 8.
Qed.

End Sessions.

(** The session of the example redirect. *)
Lemma getSession_returns_anonymous_session_witness :
  exists s,
    Utilities000.getSession (P := examplePlatform) (Reply toCompany) = Ok s
    /\ truthy (uuid s) = true /\ truthy (id s) = true /\ token s = None.
Proof.
  eexists. split; [reflexivity|].
  destruct (@getSession_returns_anonymous_session examplePlatform
              (Reply toCompany) _ eq_refl) as (H1 & H2 & H3 & _).
  auto.
Defined.


(** A request that is not redirected, in the later revision: a session
    without [uuid] and [id]. *)
Lemma getSession001_fields_together_witness :
  UtilitiesTs.getSession001 (P := examplePlatform) (Reply noRedirect)
  = Ok (None, None)
  /\ exists r, axios (Reply noRedirect) = Fulfilled r.
Proof.
  split; [reflexivity|].
  destruct (@getSession001_fields_together examplePlatform (Reply noRedirect)
              None None eq_refl) as [(_ & _ & H)|(g & c & r & H & _)].
  - exact H.
  - discriminate.
Defined.

(* ===================================================================== *)
(** ** The listing of notices, row by row *)
(* ===================================================================== *)

Section NoticeRows.
Import CompanyTs.
Context {P : Platform}.

(** X14. A result of [getNotices] has one record for every row of each
    of the two tables, in the order of the rows; no row is passed
    over. *)
Theorem getNotices_one_record_per_row (get : reply) (ns : Notices.t) :
  getNotices get = Ok ns ->
  exists response,
    axios get = Fulfilled response
    /\ Forall2 (fun row d => dpsOfRow (Notices.language ns) row = Ok d)
               (dpsRows (document response))
               (Notices.dynamicPurchasingSystems ns)
    /\ Forall2 (fun row n => noticeOfRow (Notices.language ns) row = Ok n)
               (noticeRows (document response)) (Notices.notices ns)
    /\ List.length (Notices.dynamicPurchasingSystems ns)
       = List.length (dpsRows (document response))
    /\ List.length (Notices.notices ns)
       = List.length (noticeRows (document response)).
Proof.
  unfold getNotices. intros H. unbind H. injection H as <-. simpl.
  destruct (axios get) as [r|[r|]]; simpl in Hx; try discriminate.
  - injection Hx as <-. exists r.
    apply mapM_ok in Hx1, Hx2.
    repeat split; auto; symmetry; eapply Forall2_length; eauto.
  - destruct (is302 r); discriminate.
Qed.

(** X15. One row that cannot be read makes the whole listing fail:
    when the page is loaded and its locale found, a row of either
    table on which the extraction throws leaves [getNotices] without a
    result. *)
Theorem getNotices_fails_on_bad_row
    (get : reply) (response : response) (locale : Language)
    (row : selection) (e : error) :
  axios get = Fulfilled response ->
  matchLocale (data response) = Ok locale ->
  (In row (dpsRows (document response)) /\ dpsOfRow locale row = Throw e)
  \/ (In row (noticeRows (document response)) /\ noticeOfRow locale row = Throw e) ->
  exists e', getNotices get = Throw e'.
Proof.
  intros Hget Hl Hrow. unfold getNotices. rewrite Hget. simpl. rewrite Hl. simpl.
  destruct Hrow as [[Hin He]|[Hin He]].
  - destruct (@mapM_fails _ _ (dpsOfRow locale) _ row e Hin He) as (e' & ->).
    simpl. eauto.
  - destruct (mapM (dpsOfRow locale) _); simpl; [|eauto].
    destruct (@mapM_fails _ _ (noticeOfRow locale) _ row e Hin He) as (e' & ->).
    simpl. eauto.
Qed.

Lemma short_row_has_no_id (row : selection) :
  List.length row < 7 -> idOfRow row = Throw TypeError.
Proof.
  intros H. unfold idOfRow, at_.
  assert (Hn : nth_error row 6 = None) by (apply nth_error_None; lia).
  rewrite Hn. reflexivity.
Qed.

(** X16. A row with fewer than seven [td] cells, such as a header row
    inside the table body, has no link to read the id from: its
    extraction throws a [TypeError], for both tables. *)
Theorem short_row_is_type_error (locale : Language) (row : selection) :
  List.length row < 7 ->
  dpsOfRow locale row = Throw TypeError
  /\ noticeOfRow locale row = Throw TypeError.
Proof.
  intros H. unfold dpsOfRow, noticeOfRow.
  rewrite (short_row_has_no_id row H). split; reflexivity.
Qed.

(** X17. In a notice row the deadline pair is [null] exactly when the
    deadline cell is empty or blank, and otherwise the raw deadline is
    the trimmed text of the cell; in a row of a dynamic purchasing
    system the pair is never [null]: the raw deadline is the trimmed
    text of the cell, be it empty, and the deadline its parse. *)
Theorem deadline_null_iff_blank_cell (locale : Language) (row : selection) :
  (forall n, noticeOfRow locale row = Ok n ->
             (cellText 4 row = [] ->
              Notice.deadline n = None /\ Notice.originalDeadline n = None)
             /\ (cellText 4 row <> [] ->
                 Notice.originalDeadline n = Some (cellText 4 row)
                 /\ exists t, Notice.deadline n = Some t
                              /\ parseLocalizedDate (cellText 4 row) locale = Ok t))
  /\ (forall d, dpsOfRow locale row = Ok d ->
                Dps.originalDeadline d = Some (cellText 4 row)
                /\ exists t, Dps.deadline d = Some t
                             /\ parseLocalizedDate (cellText 4 row) locale = Ok t).
Proof.
  split.
  - intros n H. unfold noticeOfRow in H. unbind H. injection H as <-. simpl.
    fold (cellText 4 row) in *.
    destruct (cellText 4 row) as [|c t] eqn:E; simpl in *.
    + injection Hx1 as <-. split; [auto|congruence].
    + unbind Hx1. injection Hx1 as <-. split; [discriminate|eauto].
  - intros d H. unfold dpsOfRow in H. unbind H. injection H as <-. simpl.
    fold (cellText 4 row) in *. eauto.
Qed.

End NoticeRows.

(** The records of the example page, row by row. *)
Lemma getNotices_one_record_per_row_witness :
  exists ns,
    CompanyTs.getNotices (P := examplePlatform) (Reply noticesPage) = Ok ns
    /\ List.length (Notices.dynamicPurchasingSystems ns) = 1
    /\ List.length (Notices.notices ns) = 2.
Proof.
  eexists. split; [vm_compute; reflexivity|].
  destruct (@getNotices_one_record_per_row examplePlatform (Reply noticesPage)
              _ eq_refl) as (r & Hr & _ & _ & H1 & H2).
  injection Hr as <-. split; [exact H1|exact H2].
Defined.

(** A row of two cells. *)
Lemma short_row_is_type_error_witness :
  CompanyTs.noticeOfRow (P := examplePlatform) Fi
    [td [Text (lit "Tunniste")]; td [Text (lit "Yksikko")]] = Throw TypeError.
Proof.
  apply (@short_row_is_type_error examplePlatform). simpl. lia.
Defined.

(** The page with the header row gives no listing. *)
Lemma getNotices_fails_on_bad_row_witness :
  exists e, CompanyTs.getNotices (P := examplePlatform) (Reply headedNoticesPage)
            = Throw e.
Proof.
  apply (@getNotices_fails_on_bad_row examplePlatform (Reply headedNoticesPage)
           headedNoticesPage Fi [] TypeError); [reflexivity|reflexivity|].
  right. split; [left; reflexivity|reflexivity].
Defined.

(** The flags of the example row: one icon, one flag. *)
Lemma flags_never_dropped_witness :
  exists n,
    CompanyTs.noticeOfRow (P := examplePlatform) Fi idTitledRow = Ok n
    /\ Forall2 (fun el f => CompanyTs.flagOfIcon el = Ok f)
               (find [T "img"] (at_ 2 idTitledRow)) (Notice.flags n).
Proof.
  eexists. split; [vm_compute; reflexivity|].
  apply (@flags_never_dropped examplePlatform Fi idTitledRow).
  vm_compute. reflexivity.
Defined.

(** A row with an icon of neither convention gives no record. *)
Lemma undecodable_icon_fails_witness :
  exists e, CompanyTs.noticeOfRow (P := examplePlatform) Fi strangeIconRow
            = Throw e.
Proof.
  apply (@undecodable_icon_fails examplePlatform Fi strangeIconRow
           (Elem (lit "img") [(lit "src", lit "/images/uusi.png")] [])
           FlagParseError).
  - left. reflexivity.
  - reflexivity.
Defined.

(* ===================================================================== *)
(** ** The company listing, cell by cell *)
(* ===================================================================== *)

Section CompanyCells.
Import CompanyTs.
Context {P : Platform}.

Lemma malformed_cell_throws (cell : node) :
  spacer cell = false -> extractable cell = false ->
  companyOfCell false cell = Throw (Error "Failed getting company id")
  \/ companyOfCell false cell = Throw (Error "Failed getting company slug").
Proof.
  unfold spacer, extractable, companyOfCell. intros Hs He.
  apply orb_false_iff in Hs as [Hs1 Hs2]. apply negb_false_iff in Hs1.
  cbv zeta. rewrite Hs1, Hs2. cbv [negb].
  apply andb_false_iff in He as [He|He]; rewrite ?He; [now left|].
  destruct (truthyOpt (option_map (substr 15) _)) eqn:E1; [|now left].
  destruct (option_map (substr 15) _); [|discriminate]. now right.
Qed.

Lemma companyOfCell_errors (cell : node) (e : error) :
  companyOfCell false cell = Throw e ->
  e = Error "Failed getting company id"
  \/ e = Error "Failed getting company slug".
Proof.
  unfold companyOfCell. cbv zeta.
  destruct (negb (truthyOpt (attr "style" [cell]))); [discriminate|].
  destruct (truthyOpt (attr "colspan" [cell])); [discriminate|].
  destruct (option_map (substr 15) _) as [i|]; simpl;
    [|intros [= <-]; now left].
  destruct (truthy i); simpl; [|intros [= <-]; now left].
  destruct (option_map (substr 26) _) as [s|]; simpl;
    [|intros [= <-]; now right].
  destruct (truthy s); simpl; [discriminate|intros [= <-]; now right].
Qed.

(** X18. One data cell without a readable id or slug makes the whole
    listing fail: when the index page is loaded and one of its cells
    that is not passed over lacks the image source or the link to read
    them from, [getCompanies] returns no list but throws the error of
    the missing id or of the missing slug. *)
Theorem getCompanies_fails_on_malformed_cell
    (get : reply) (response : response) (cell : node) :
  axios get = Fulfilled response ->
  In cell (companiesTable (document response)) ->
  spacer cell = false ->
  extractable cell = false ->
  getCompanies get false = Throw (Error "Failed getting company id")
  \/ getCompanies get false = Throw (Error "Failed getting company slug").
Proof.
  intros Hget Hin Hs He. unfold getCompanies. rewrite Hget.
  induction (companiesTable (document response)) as [|c cells IH];
    [easy|]. simpl.
  destruct (companyOfCell false c) as [r|e] eqn:Hc; simpl.
  - destruct Hin as [->|Hin].
    + destruct (malformed_cell_throws cell Hs He); congruence.
    + destruct (IH Hin) as [->| ->]; auto.
  - destruct (companyOfCell_errors c Hc) as [->| ->]; auto.
Qed.

(** X19. What a data cell gives: the id is [parseInt] of the source of
    its first image after the first 15 characters, the slug is the
    address of its first link after the first 26 characters, whatever
    these characters are, and the name is the text of its first
    paragraph. *)
Theorem companyOfCell_strips_by_length
    (cell : node) (a i b s : jsstring) :
  spacer cell = false ->
  attr "src" (at_ 0 (find [T "img"] [cell])) = Some (a ++ i) ->
  List.length a = 15 -> truthy i = true ->
  attr "href" (at_ 0 (find [T "a"] [cell])) = Some (b ++ s) ->
  List.length b = 26 -> truthy s = true ->
  companyOfCell false cell
  = Ok (Some {| Company.id := parseInt i; Company.slug := s;
                Company.name := text (at_ 0 (find [T "p"] [cell]));
                Company.logo := None |}).
Proof.
  unfold spacer, companyOfCell. intros Hs Hsrc Ha Hi Hhref Hb Hsl.
  apply orb_false_iff in Hs as [Hs1 Hs2]. apply negb_false_iff in Hs1.
  assert (H1 : skipn 15 (a ++ i) = i) by (rewrite <- Ha; apply skipn_past).
  assert (H2 : skipn 26 (b ++ s) = s) by (rewrite <- Hb; apply skipn_past).
  cbv zeta. rewrite Hs1, Hs2, Hsrc, Hhref. cbv [negb option_map substr].
  rewrite H1, H2. cbv [truthyOpt]. rewrite Hi, Hsl. reflexivity.
Qed.

End CompanyCells.

(** The listing whose second company cell has no image. *)
Lemma getCompanies_fails_on_malformed_cell_witness :
  CompanyTs.getCompanies (P := examplePlatform) (Reply brokenListing) false
  = Throw (Error "Failed getting company id")
  \/ CompanyTs.getCompanies (P := examplePlatform) (Reply brokenListing) false
     = Throw (Error "Failed getting company slug").
Proof.
  apply (@getCompanies_fails_on_malformed_cell examplePlatform
           (Reply brokenListing) brokenListing
           (Elem (lit "td") [(lit "style", lit "width:25%")]
              [Elem (lit "p") [] [Text (lit "Nimeton")]])).
  - reflexivity.
  - right. left. reflexivity.
  - reflexivity.
  - reflexivity.
Defined.

(** The cell of Acme Oy. *)
Lemma companyOfCell_strips_by_length_witness :
  CompanyTs.companyOfCell (P := examplePlatform) false
    (companyCell [(lit "style", lit "width:25%")]) = Ok (Some acme).
Proof.
  apply (@companyOfCell_strips_by_length examplePlatform
           (companyCell [(lit "style", lit "width:25%")])
           (lit "/Default/Image/") (lit "42")
           (lit "https://tarjouspalvelu.fi/") (lit "acme"));
    reflexivity.
Defined.

(* ===================================================================== *)
(** ** A single notice *)
(* ===================================================================== *)

Section SingleNotice.
Import NoticeTs.
Context {P : Platform}.

Lemma hrefs_length (sel : selection) :
  List.length (hrefs sel) = List.length (filter hasHref sel).
Proof.
  unfold hrefs, hasHref. induction sel as [|el sel IH]; [reflexivity|].
  cbn [flat_map filter]. destruct (attr "href" [el]);
    cbn [app List.length]; auto.
Qed.

Lemma hrefs_in (sel : selection) (h : jsstring) :
  In h (hrefs sel) <-> exists el, In el sel /\ attr "href" [el] = Some h.
Proof.
  unfold hrefs. rewrite in_flat_map. split; intros (el & Hin & H); exists el;
    split; auto.
  - destruct (attr "href" [el]); simpl in H; [|easy].
    destruct H as [->|[]]. reflexivity.
  - rewrite H. now left.
Qed.

(** X20. In a notice [getNotice] returns there is one attachment for
    every file link of the attachments page, a link without [href]
    included (its [fileUuid] is then undefined); the external links
    are the addresses of the links that have one, so a link without
    [href] is left out of them. *)
Theorem getNotice_attachments_and_links
    (processing details attachments : reply) (noticeId : number)
    (n : Notice.t) (page : response) :
  getNotice processing details attachments noticeId = Ok n ->
  loaded attachments = Ok page ->
  exists atts ls,
    Notice.attachments n = Some atts
    /\ Notice.links n = Some ls
    /\ Forall2 (fun el att => Attachment.fileName att = textOf el
                              /\ (attr "href" [el] = None ->
                                  Attachment.fileUuid att = None))
               (fileLinks (document page)) atts
    /\ List.length ls = List.length (filter hasHref (plainLinks (document page)))
    /\ forall h, In h ls <->
                 exists el, In el (plainLinks (document page))
                            /\ attr "href" [el] = Some h.
Proof.
  intros H Hpage. unfold getNotice in H. unbind H.
  rewrite Hpage in Hx2. injection Hx2 as <-.
  unfold noticeOf in H. unbind H. injection H as <-.
  simpl Notice.attachments. simpl Notice.links.
  do 2 eexists. split; [reflexivity|]. split; [reflexivity|].
  split; [|split].
  - unfold fileLinks.
    induction (select _ (document page)) as [|el l IH]; simpl; constructor; auto.
    split; [reflexivity|]. unfold attachmentOfLink. simpl. now intros ->.
  - apply hrefs_length.
  - apply hrefs_in.
Qed.

(** X21. The time zone annotation of the deadline: when the deadline
    field of the details page reads a date followed by two spaces and
    an opening [(UTC], the raw deadline of the notice is the date
    before the first such annotation and the deadline is the parse of
    that date; a field without annotation is taken whole, and an empty
    field gives [null] for both. *)
Theorem getNotice_strips_timezone
    (processing details attachments : reply) (noticeId : number)
    (n : Notice.t) (page : response) :
  getNotice processing details attachments noticeId = Ok n ->
  loaded details = Ok page ->
  (forall date zone,
      dueText (document page) = date ++ lit "  (UTC" ++ zone ->
      indexOf (lit "  (UTC") (date ++ lit "  (UTC" ++ zone)
      = Some (List.length date) ->
      Notice.originalDeadline n = Some date
      /\ exists locale t, Notice.deadline n = Some t
                          /\ parseLocalizedDate date locale = Ok t)
  /\ (dueText (document page) <> [] ->
      includes (dueText (document page)) (lit "  (UTC") = false ->
      Notice.originalDeadline n = Some (dueText (document page)))
  /\ (dueText (document page) = [] ->
      Notice.originalDeadline n = None /\ Notice.deadline n = None).
Proof.
  intros H Hpage. unfold getNotice in H. unbind H.
  rewrite Hpage in Hx1. injection Hx1 as <-.
  unfold noticeOf in H. unbind H. injection H as <-.
  simpl Notice.originalDeadline. simpl Notice.deadline.
  fold (dueText (document page)) in *.
  split; [|split].
  - intros date zone Hd Hi.
    assert (Hs : split0 (lit "  (UTC") (dueText (document page)) = date).
    { unfold split0. rewrite Hd, Hi. apply firstn_upto. }
    assert (Hne : negb (Nat.eqb (List.length (dueText (document page))) 0) = true).
    { rewrite Hd. destruct date; reflexivity. }
    rewrite Hne in *. unbind Hx3. injection Hx3 as <-.
    rewrite Hs in *. eauto.
  - intros Hne Hinc.
    destruct (dueText (document page)) as [|c t] eqn:E; [congruence|].
    simpl negb. cbv iota. f_equal. unfold split0.
    unfold includes in Hinc. now destruct (indexOf _ (c :: t)).
  - intros E. rewrite E in *. simpl in *. injection Hx3 as <-. auto.
Qed.

End SingleNotice.

(** The example notice: one file and one external link. *)
Lemma getNotice_attachments_and_links_witness :
  exists n atts ls,
    NoticeTs.getNotice (P := examplePlatform) (Reply processingPage)
      (Reply detailsPage) (Reply attachmentsPage) (Num 77) = Ok n
    /\ Notice.attachments n = Some atts
    /\ Notice.links n = Some ls
    /\ List.length ls
       = List.length (filter hasHref (plainLinks (document attachmentsPage))).
Proof.
  destruct (NoticeTs.getNotice (P := examplePlatform) (Reply processingPage)
              (Reply detailsPage) (Reply attachmentsPage) (Num 77))
    as [n|e] eqn:H; [|vm_compute in H; discriminate].
  destruct (@getNotice_attachments_and_links examplePlatform _ _ _ _ n
              attachmentsPage H eq_refl) as (atts & ls & Ha & Hl & _ & Hn & _).
  exists n, atts, ls. auto.
Defined.

(** The example notice: the annotation [(UTC+02:00)] is cut off. *)
Lemma getNotice_strips_timezone_witness :
  exists n,
    NoticeTs.getNotice (P := examplePlatform) (Reply processingPage)
      (Reply detailsPage) (Reply attachmentsPage) (Num 77) = Ok n
    /\ Notice.originalDeadline n = Some (lit "1.3.2024 12:00:00").
Proof.
  destruct (NoticeTs.getNotice (P := examplePlatform) (Reply processingPage)
              (Reply detailsPage) (Reply attachmentsPage) (Num 77))
    as [n|e] eqn:H; [|vm_compute in H; discriminate].
  exists n. split; [reflexivity|].
  destruct (@getNotice_strips_timezone examplePlatform _ _ _ _ n
              detailsPage H eq_refl) as (H1 & _).
  apply (H1 (lit "1.3.2024 12:00:00") (lit "+02:00)")); reflexivity.
Defined.

(* ===================================================================== *)
(** ** Facts about query strings *)
(* ===================================================================== *)

Section QuerystringFacts.
Context {P : Platform}.






End QuerystringFacts.

(* ===================================================================== *)
(** ** Tenders in progress *)
(* ===================================================================== *)

Section Tenders.
Import TenderMore.
Context {P : Platform}.

Lemma param_only_type_error (key : string) (qs : jsstring) (e : error) :
  Querystring.param key qs = Throw e -> e = TypeError.
Proof.
  unfold Querystring.param.
  destruct (Querystring.get key _); simpl; [discriminate|now intros [= <-]].
Qed.

(** X22. On a loaded page [getTenderId] throws [NoTenderInProgress]
    exactly when the modify link is missing or has no address or an
    empty one; and a tender id it returns is the [tarjID] parameter of
    the address of that link. *)
Theorem getTenderId_no_tender_iff_no_link (get : reply) (page : response) :
  axios get = Fulfilled page ->
  (getTenderId get = Throw NoTenderInProgress
   <-> truthyOpt (modifyLink (document page)) = false)
  /\ (forall tender,
         getTenderId get = Ok tender ->
         exists link, modifyLink (document page) = Some link
                      /\ truthy link = true
                      /\ Querystring.param "tarjID" link = Ok tender).
Proof.
  intros Hget. unfold getTenderId. rewrite Hget. simpl.
  destruct (modifyLink (document page)) as [link|]; simpl.
  - destruct (truthy link) eqn:Ht; simpl.
    + split.
      * split; [|discriminate]. intros H.
        apply param_only_type_error in H. discriminate.
      * intros tender H. eauto.
    + split; [split; auto|discriminate].
  - split; [split; auto|discriminate].
Qed.


End Tenders.

(** The example pages: one with a tender in progress, one without. *)
Lemma getTenderId_no_tender_iff_no_link_witness :
  TenderMore.getTenderId (P := examplePlatform) (Reply noTendersPage)
  = Throw NoTenderInProgress.
Proof.
  apply (proj1 (@getTenderId_no_tender_iff_no_link examplePlatform
                  (Reply noTendersPage) noTendersPage eq_refl)).
  reflexivity.
Defined.


(* ===================================================================== *)
(** ** The ids of rows *)
(* ===================================================================== *)

Section RowIds.
Import CompanyTs.
Context {P : Platform}.


End RowIds.


(* ===================================================================== *)
(** ** The procurement organization of a company *)
(* ===================================================================== *)

Section Organization.
Import CompanyMore.
Context {P : Platform}.

(** X25. [getCompanyProcurementOrganizationId] reads the id from the
    first hidden [HankOrgIdHidden] field of a loaded page: it returns
    [parseInt] of the value of that field, when the value stands on
    one line; on a loaded page without such a field it throws a
    [TypeError]. *)
Theorem organization_id_from_hidden_field (get : reply) (page : response) :
  axios get = Fulfilled page ->
  (forall pre value post,
      data page = pre ++ hiddenIdBefore ++ value ++ hiddenIdAfter ++ post ->
      indexOf hiddenIdBefore (data page) = Some (List.length pre) ->
      indexOf hiddenIdAfter (value ++ hiddenIdAfter ++ post)
      = Some (List.length value) ->
      oneLine value = true ->
      getCompanyProcurementOrganizationId get = Ok (parseInt value))
  /\ (includes (data page) hiddenIdBefore = false ->
      getCompanyProcurementOrganizationId get = Throw TypeError).
Proof.
  intros Hget. unfold getCompanyProcurementOrganizationId.
  rewrite Hget. cbn [bind]. split.
  - intros pre value post Hd Hb Ha Hl. rewrite Hd in *.
    now rewrite regexMatch_between.
  - intros H. now rewrite regexMatch_absent.
Qed.

End Organization.

(** The example company page: organization 14. *)
Lemma organization_id_from_hidden_field_witness :
  CompanyMore.getCompanyProcurementOrganizationId (Reply companyPage)
  = Ok (Num 14).
Proof.
  apply (proj1 (organization_id_from_hidden_field (Reply companyPage)
                  eq_refl)
           (cultureScript "sv-SE" ++ 10%N
              :: lit "<input type=hidden id=ctl00_PageContent_HankOrgIdHidden name=ctl00$PageContent$")
           (lit "14") (lit "</form>"));
    reflexivity.
Defined.

(* ===================================================================== *)
(** ** A session that is no longer accepted *)
(* ===================================================================== *)

Section BadSession.
Context {P : Platform}.

(** X26. Every page request made with the session reports a redirect
    (302) as a bad session and reads nothing from the response:
    [getNotices], [getNotice] (on its first page), [getSessionLanguage],
    [getCompanyProcurementOrganizationId],
    [getCompanyProcurementUnits] and [getTenderId] each throw their
    error with the words [bad session?]. *)
Theorem redirect_means_bad_session (r : response) :
  status r = 302%Z ->
  CompanyTs.getNotices (Reply r)
  = Throw (Error "Failed to load notices, bad session?")
  /\ (forall details attachments noticeId,
         NoticeTs.getNotice (Reply r) details attachments noticeId
         = Throw (Error "Failed to load notice, bad session?"))
  /\ UtilitiesTs.getSessionLanguage (Reply r)
     = Throw (Error "Failed to load page, bad session?")
  /\ CompanyMore.getCompanyProcurementOrganizationId (Reply r)
     = Throw (Error "Failed to load page, bad session?")
  /\ CompanyMore.getCompanyProcurementUnits (Reply r)
     = Throw (Error "Failed to load notice, bad session?")
  /\ TenderMore.getTenderId (Reply r)
     = Throw (Error "Failed to get the ID of the tender, bad session?").
Proof.
  intros Hs.
  unfold CompanyTs.getNotices, NoticeTs.getNotice, NoticeTs.loaded,
    UtilitiesTs.getSessionLanguage, CompanyMore.getCompanyProcurementOrganizationId,
    CompanyMore.getCompanyProcurementUnits, TenderMore.getTenderId.
  rewrite (axios_302 r Hs). simpl. rewrite (is302_of_status r Hs).
  repeat split.
Qed.

(** X27. The same requests answered with an error status other than
    302 (a status outside 200 to 299) fail without these words, and a
    request that receives no response at all fails with a
    [TypeError]. *)
Theorem other_failures_are_not_bad_session (r : response) :
  (status r < 200 \/ 300 <= status r)%Z -> status r <> 302%Z ->
  (CompanyTs.getNotices (Reply r) = Throw (Error "Failed to load notices")
   /\ UtilitiesTs.getSessionLanguage (Reply r) = Throw (Error "Failed to load page")
   /\ CompanyMore.getCompanyProcurementOrganizationId (Reply r)
      = Throw (Error "Failed to load page")
   /\ CompanyMore.getCompanyProcurementUnits (Reply r)
      = Throw (Error "Failed to load notice")
   /\ TenderMore.getTenderId (Reply r) = Throw (Error "Failed to load tender"))
  /\ (CompanyTs.getNotices NoReply = Throw TypeError
      /\ UtilitiesTs.getSessionLanguage NoReply = Throw TypeError
      /\ CompanyMore.getCompanyProcurementOrganizationId NoReply = Throw TypeError
      /\ CompanyMore.getCompanyProcurementUnits NoReply = Throw TypeError
      /\ TenderMore.getTenderId NoReply = Throw TypeError).
Proof.
  intros Hs Hne.
  assert (Ha : axios (Reply r) = Rejected (Some r)).
  { unfold axios.
    destruct (Z.leb_spec 200 (status r)), (Z.ltb_spec (status r) 300);
      simpl; auto; lia. }
  assert (H302 : is302 r = false) by (unfold is302; now apply Z.eqb_neq).
  unfold CompanyTs.getNotices, UtilitiesTs.getSessionLanguage,
    CompanyMore.getCompanyProcurementOrganizationId,
    CompanyMore.getCompanyProcurementUnits, TenderMore.getTenderId.
  rewrite Ha. simpl. rewrite H302. repeat split.
Qed.

End BadSession.

(** The redirect to the index page, as a session that expired
    receives it. *)
Lemma redirect_means_bad_session_witness :
  TenderMore.getTenderId (P := examplePlatform) (Reply toIndex)
  = Throw (Error "Failed to get the ID of the tender, bad session?").
Proof.
  apply (@redirect_means_bad_session examplePlatform toIndex). reflexivity.
Defined.

(** A page the server refuses with status 500. *)
Lemma other_failures_are_not_bad_session_witness :
  CompanyTs.getNotices (P := examplePlatform) (Reply (page 500 [] []))
  = Throw (Error "Failed to load notices").
Proof.
  apply (@other_failures_are_not_bad_session examplePlatform (page 500 [] [])).
  - right. simpl. lia.
  - simpl. lia.
Defined.

(* ===================================================================== *)
(** ** Yes and no *)
(* ===================================================================== *)

Section YesNo.
Import UtilitiesTs.
Variable toLowerCase : jsstring -> jsstring.
Hypothesis lowers : lowersAscii toLowerCase.

Lemma asciiLower_ascii (c : char) : (c < 128)%N -> (asciiLower c < 128)%N.
Proof.
  unfold asciiLower. intros H.
  destruct (N.leb_spec 65 c), (N.leb_spec c 90); simpl; lia.
Qed.

Lemma lowered_is_not_kylla (t : jsstring) :
  isAscii t -> eqb (map asciiLower t) kylla = false.
Proof.
  intros Ht. destruct (eqb (map asciiLower t) kylla) eqn:E; auto.
  apply eqb_eq in E.
  assert (Hin : In 228%N (map asciiLower t)) by (rewrite E; simpl; auto 10).
  apply in_map_iff in Hin as (c & Hc & Hin).
  unfold isAscii in Ht. rewrite Forall_forall in Ht.
  pose proof (asciiLower_ascii (Ht c Hin)). lia.
Qed.

(** X28. [boolFromYesOrNo] does not look at the case of ASCII letters:
    for a text of ASCII characters it returns true exactly when the
    text, in lower case, is [ja] or [yes], false exactly when it is
    [ei], [nej] or [no], and throws otherwise; two such texts that
    differ only in case get the same answer. *)
Theorem boolFromYesOrNo_ignores_ascii_case (t : jsstring) :
  isAscii t ->
  (boolFromYesOrNo toLowerCase t = Ok true
   <-> map asciiLower t = lit "ja" \/ map asciiLower t = lit "yes")
  /\ (boolFromYesOrNo toLowerCase t = Ok false
      <-> map asciiLower t = lit "ei" \/ map asciiLower t = lit "nej"
          \/ map asciiLower t = lit "no")
  /\ (forall t', isAscii t' -> map asciiLower t' = map asciiLower t ->
                 boolFromYesOrNo toLowerCase t' = boolFromYesOrNo toLowerCase t).
Proof.
  intros Ht. unfold boolFromYesOrNo.
  split; [|split].
  - rewrite (lowers Ht), (lowered_is_not_kylla Ht). simpl.
    destruct (eqb (map asciiLower t) (lit "ja")) eqn:E1;
      [apply eqb_eq in E1; rewrite E1; simpl; split; auto|].
    destruct (eqb (map asciiLower t) (lit "yes")) eqn:E2;
      [apply eqb_eq in E2; rewrite E2; simpl; split; auto|].
    simpl. split.
    + destruct (_ || _)%bool; discriminate.
    + intros [H|H]; rewrite H in *; discriminate.
  - rewrite (lowers Ht), (lowered_is_not_kylla Ht). simpl.
    destruct (eqb (map asciiLower t) (lit "ja")) eqn:E1;
      [apply eqb_eq in E1; rewrite E1; simpl; split;
       [discriminate|intros [H|[H|H]]; discriminate]|].
    destruct (eqb (map asciiLower t) (lit "yes")) eqn:E2;
      [apply eqb_eq in E2; rewrite E2; simpl; split;
       [discriminate|intros [H|[H|H]]; discriminate]|].
    simpl.
    destruct (eqb (map asciiLower t) (lit "ei")) eqn:E3;
      [apply eqb_eq in E3; split; auto|].
    destruct (eqb (map asciiLower t) (lit "nej")) eqn:E4;
      [apply eqb_eq in E4; split; auto|].
    destruct (eqb (map asciiLower t) (lit "no")) eqn:E5;
      [apply eqb_eq in E5; split; auto|].
    simpl. split; [discriminate|].
    intros [H|[H|H]]; rewrite H in *; discriminate.
  - intros t' Ht' Heq. now rewrite (lowers Ht), (lowers Ht'), Heq.
Qed.

End YesNo.

Lemma exampleLower_lowersAscii : lowersAscii exampleLower.
Proof. intros s _. reflexivity. Qed.

(** [YES], [Yes] and [yes] are all true. *)
Lemma boolFromYesOrNo_ignores_ascii_case_witness :
  UtilitiesTs.boolFromYesOrNo exampleLower (lit "YeS") = Ok true.
Proof.
  assert (Ha : isAscii (lit "YeS")) by (repeat constructor).
  apply (proj1 (boolFromYesOrNo_ignores_ascii_case exampleLower_lowersAscii Ha)).
  right. reflexivity.
Defined.
